(** * The buffered transform of the XMLSec library ([src/buffered.c])

    A buffered transform sits in a chain of binary transforms.  It gathers the
    whole input in an [xmlBuffer], runs the [bufferedProcess] method of its
    transform id on it, and hands the result on: to the caller of
    [xmlSecBufferedTransformRead] (pull mode) or to the next transform from
    [xmlSecBufferedTransformFlush] (push mode).

    The embedding keeps the C code's shape.  The heap objects the code touches
    are the fields of a [World]: the transform itself, the transforms behind
    its [prev] and [next] links, and a ghost log of the calls that leave the
    transform.  [xmlBufferAdd] is taken not to run out of memory (the C code
    ignores its result). *)

From Stdlib Require Import ZArith List Lia Bool.
From Stdlib Require Import Init.Byte.
Import ListNotations.
Local Open Scope Z_scope.

Set Implicit Arguments.

(** ** Outcome of a C call *)

(** A call returns, or it runs into undefined behaviour (an access through a
    pointer to freed memory, a read past the end of a region), or its loop is
    still running when the fuel of the model is spent. *)
Inductive result (A : Type) : Type :=
| Returns (a : A)
| Undefined
| OutOfFuel.

Arguments Undefined {A}.
Arguments OutOfFuel {A}.

Definition bind {A B : Type} (r : result A) (k : A -> result B) : result B :=
  match r with
  | Returns a => k a
  | Undefined => Undefined
  | OutOfFuel => OutOfFuel
  end.

Notation "x <- r ;; k" := (bind r (fun x => k))
  (at level 61, r at next level, right associativity).
Notation "' p <- r ;; k" := (bind r (fun p => k))
  (at level 61, p pattern, r at next level, right associativity).

(** ** Memory regions and the libxml2 byte buffer *)

(** [memcpy dst src n]: the region [dst] after its first [n] bytes were
    overwritten with the first [n] bytes of [src]. *)
Definition memcpy (dst src : list byte) (n : nat) : list byte :=
  firstn n src ++ skipn n dst.

(** [memset dst c n]: the region [dst] after its first [n] bytes were set to [c]. *)
Definition memset (dst : list byte) (c : byte) (n : nat) : list byte :=
  repeat c n ++ skipn n dst.

(** The content of a live [xmlBuffer]. *)
Definition xmlBuffer : Type := list byte.

Definition xmlBufferLength (b : xmlBuffer) : nat := length b.

Definition xmlBufferContent (b : xmlBuffer) : list byte := b.

(** [xmlBufferAdd b str len] appends the first [len] bytes at [str]. *)
Definition xmlBufferAdd (b : xmlBuffer) (str : list byte) (len : nat) : xmlBuffer :=
  b ++ firstn len str.

(** The largest [int], and the [int] a [size_t] becomes where the code passes
    one for the other: its low 32 bits read as a two's complement number. *)
Definition INT_MAX : Z := 2 ^ 31 - 1.

Definition int_of_size (size : nat) : Z :=
  (Z.of_nat size + 2 ^ 31) mod 2 ^ 32 - 2 ^ 31.

(** [xmlStrlen str]: the number of bytes before the first zero byte; [None]
    when the region has none, so that the search leaves it. *)
Fixpoint xmlStrlen (str : list byte) : option nat :=
  match str with
  | [] => None
  | x00 :: _ => Some 0%nat
  | _ :: str' => option_map S (xmlStrlen str')
  end.

(** [xmlBufferAdd] with its [len] as libxml2 declares it, an [int]: below -1
    the call is refused, 0 adds nothing, -1 stands for the length of the
    string at [str], and a [len] above 0 adds that many bytes, which have to
    be there.  (The loop of the read calls it with 0 < [len] only.) *)
Definition xmlBufferAddInt (b : xmlBuffer) (str : list byte) (len : Z) : result xmlBuffer :=
  if len <? -1 then Returns b
  else if len =? 0 then Returns b
  else if len =? -1 then
    match xmlStrlen str with
    | Some n => Returns (xmlBufferAdd b str n)
    | None => Undefined
    end
  else if Z.of_nat (length str) <? len then Undefined
  else Returns (xmlBufferAdd b str (Z.to_nat len)).

(** [xmlBufferShrink b len] removes the first [len] bytes. *)
Definition xmlBufferShrink (b : xmlBuffer) (len : nat) : xmlBuffer :=
  skipn len b.

(** The value of a field of type [xmlBufferPtr]: [NULL], the address of a live
    buffer (shown by its content), or the address of a buffer that
    [xmlBufferFree] has released. *)
Inductive xmlBufferPtr : Type :=
| BufNull
| BufLive (content : xmlBuffer)
| BufFreed.

(** [xmlBufferCreate ()]; [ok] says whether the allocation succeeds. *)
Definition xmlBufferCreate (ok : bool) : xmlBufferPtr :=
  if ok then BufLive [] else BufNull.

(** [xmlBufferEmpty] and [xmlBufferFree] return at once on [NULL]; on a
    released buffer they are a use after free. *)
Definition xmlBufferEmpty (p : xmlBufferPtr) : result xmlBufferPtr :=
  match p with
  | BufNull => Returns BufNull
  | BufLive _ => Returns (BufLive [])
  | BufFreed => Undefined
  end.

Definition xmlBufferFree (p : xmlBufferPtr) : result xmlBufferPtr :=
  match p with
  | BufNull => Returns BufNull
  | BufLive _ => Returns BufFreed
  | BufFreed => Undefined
  end.

Definition isNullBuffer (p : xmlBufferPtr) : bool :=
  match p with BufNull => true | _ => false end.

(** ** The transform structure *)

(** Modelled from the spec: the enumeration [xmlSecTransformStatus] is declared
    in a header outside [src/]; the code names [xmlSecTransformStatusNone] and
    [xmlSecTransformStatusOk], the spec's Pending and Finalized. *)
Inductive xmlSecTransformStatus : Type :=
| xmlSecTransformStatusNone
| xmlSecTransformStatusOk.

Definition status_eqb (a b : xmlSecTransformStatus) : bool :=
  match a, b with
  | xmlSecTransformStatusNone, xmlSecTransformStatusNone => true
  | xmlSecTransformStatusOk, xmlSecTransformStatusOk => true
  | _, _ => false
  end.

(** Modelled from the spec: the enumeration [xmlSecBinTransformSubType] is
    declared in a header outside [src/]; the code names only the buffered
    subtype, every other one is a misuse that the operations reject. *)
Inductive xmlSecBinTransformSubType : Type :=
| xmlSecBinTransformSubTypeBuffered
| xmlSecBinTransformSubTypeOther.

Definition subtype_eqb (a b : xmlSecBinTransformSubType) : bool :=
  match a, b with
  | xmlSecBinTransformSubTypeBuffered, xmlSecBinTransformSubTypeBuffered => true
  | xmlSecBinTransformSubTypeOther, xmlSecBinTransformSubTypeOther => true
  | _, _ => false
  end.

(** The [bufferedProcess] method: it rewrites the buffer in place and returns
    an [int], negative on failure.  Following the callback contract of the
    spec it has no effect on the chain besides the buffer. *)
Definition xmlSecBufferedProcessMethod : Type := xmlBuffer -> xmlBuffer * Z.

(** The transform id: the subtype tag and the method, [None] for a [NULL]
    function pointer. *)
Record xmlSecBufferedTransformId : Type := mkId {
  binSubType : xmlSecBinTransformSubType;
  bufferedProcess : option xmlSecBufferedProcessMethod
}.

(** A link to a neighbour: [None] is [NULL], [Some a] the address [a]. *)
Definition xmlSecBinTransformPtr : Type := option N.

Definition isNull (p : xmlSecBinTransformPtr) : bool :=
  match p with None => true | Some _ => false end.

Record xmlSecBufferedTransform : Type := mkTransform {
  id : xmlSecBufferedTransformId;
  status : xmlSecTransformStatus;
  prev : xmlSecBinTransformPtr;
  next : xmlSecBinTransformPtr;
  buffer : xmlBufferPtr
}.

(** Modelled from the spec: the macro [xmlSecBinTransformCheckSubType] is
    defined in a header outside [src/]; an operation on a transform whose
    type does not match the asked subtype is rejected. *)
Definition xmlSecBinTransformCheckSubType
    (t : xmlSecBufferedTransform) (st : xmlSecBinTransformSubType) : bool :=
  subtype_eqb (binSubType (id t)) st.

Definition set_status (t : xmlSecBufferedTransform) (s : xmlSecTransformStatus) :=
  {| id := id t; status := s; prev := prev t; next := next t; buffer := buffer t |}.

Definition set_buffer (t : xmlSecBufferedTransform) (b : xmlBufferPtr) :=
  {| id := id t; status := status t; prev := prev t; next := next t; buffer := b |}.

(** ** The neighbours *)

(** The three methods of the id of a binary transform.  [readBin] gets the
    region behind [buf] ([size] is its length) and gives it back as it left
    it. *)
Class BinTransform (T : Type) : Type := {
  readBin : T -> list byte -> T * list byte * Z;
  writeBin : T -> list byte -> T * Z;
  flushBin : T -> T * Z
}.

(** [written buf raw]: the region [buf] after a callee rewrote it to [raw]; a
    callee cannot move the end of the caller's region. *)
Definition written (buf raw : list byte) : list byte :=
  firstn (length buf) raw ++ skipn (length raw) buf.

(** The entry points the buffered transform calls on its neighbours. *)
Definition xmlSecBinTransformRead {T : Type} `{BinTransform T}
    (t : T) (buf : list byte) : T * list byte * Z :=
  let '(t', raw, ret) := readBin t buf in (t', written buf raw, ret).

Definition xmlSecBinTransformWrite {T : Type} `{BinTransform T}
    (t : T) (buf : list byte) : T * Z :=
  writeBin t buf.

Definition xmlSecBinTransformFlush {T : Type} `{BinTransform T} (t : T) : T * Z :=
  flushBin t.

(** The calls that leave the transform, in the order they are made. *)
Inductive Event : Type :=
| EvPrevRead (buf_in buf_out : list byte) (ret : Z)
| EvProcess (input : xmlBuffer)
| EvCallback (input : xmlBuffer) (ret : Z)
| EvNextWrite (data : list byte) (ret : Z)
| EvNextFlush (ret : Z).

Definition isProcess (e : Event) : bool :=
  match e with EvProcess _ => true | _ => false end.

Definition isCallback (e : Event) : bool :=
  match e with EvCallback _ _ => true | _ => false end.

Definition isPrevRead (e : Event) : bool :=
  match e with EvPrevRead _ _ _ => true | _ => false end.

Definition isNextWrite (e : Event) : bool :=
  match e with EvNextWrite _ _ => true | _ => false end.

Definition isNextFlush (e : Event) : bool :=
  match e with EvNextFlush _ => true | _ => false end.

Definition count (p : Event -> bool) (l : list Event) : nat :=
  length (filter p l).

(** ** The operations *)

Section Operations.

Context {U D : Type} `{BinTransform U} `{BinTransform D}.

(** The part of the heap the operations work on: the buffered transform, the
    transform behind its [prev] link and the one behind its [next] link (read
    only where the link is not [NULL]), and the log of the calls made so far. *)
Record World : Type := mkWorld {
  node : xmlSecBufferedTransform;
  upstream : U;
  downstream : D;
  calls : list Event
}.

Definition with_node (w : World) (t : xmlSecBufferedTransform) : World :=
  {| node := t; upstream := upstream w; downstream := downstream w; calls := calls w |}.

Definition with_buffer (w : World) (b : xmlBufferPtr) : World :=
  with_node w (set_buffer (node w) b).

Definition with_upstream (w : World) (u : U) : World :=
  {| node := node w; upstream := u; downstream := downstream w; calls := calls w |}.

Definition with_downstream (w : World) (d : D) : World :=
  {| node := node w; upstream := upstream w; downstream := d; calls := calls w |}.

Definition logged (w : World) (evs : list Event) : World :=
  {| node := node w; upstream := upstream w; downstream := downstream w;
     calls := calls w ++ evs |}.

(** [xmlSecBufferedProcess]: runs the method of the transform id on the buffer,
    and returns 0 when there is none.  Its callers pass a buffer that is not
    [NULL], so the argument is the live content. *)
Definition xmlSecBufferedProcess (transform : xmlSecBufferedTransform) (b : xmlBuffer)
  : xmlBuffer * Z * list Event :=
  if negb (xmlSecBinTransformCheckSubType transform xmlSecBinTransformSubTypeBuffered)
  then (b, -1, [EvProcess b])
  else
    match bufferedProcess (id transform) with
    | Some method =>
        let '(b', ret) := method b in (b', ret, [EvProcess b; EvCallback b ret])
    | None => (b, 0, [EvProcess b])
    end.

(** The [do ... while (ret > 0)] loop of [xmlSecBufferedTransformRead]: every
    round reads from the previous transform into the caller's region and adds
    what came to the buffer.  The [Z] of the result is negative when the loop
    left the function through [return(-1)]. *)
Fixpoint drain (fuel : nat) (w : World) (buf : list byte) : result (World * list byte * Z) :=
  match fuel with
  | O => OutOfFuel
  | S fuel' =>
      let '(u', buf', ret) := xmlSecBinTransformRead (upstream w) buf in
      let w1 := logged (with_upstream w u') [EvPrevRead buf buf' ret] in
      if ret <? 0 then Returns (w1, buf', -1)
      else if 0 <? ret then
        match buffer (node w1) with
        | BufLive acc =>
            if Z.of_nat (length buf') <? ret then Undefined
            else drain fuel' (with_buffer w1 (BufLive (xmlBufferAdd acc buf' (Z.to_nat ret)))) buf'
        | BufNull => drain fuel' w1 buf'
        | BufFreed => Undefined
        end
      else Returns (w1, buf', 0)
  end.

(** Lines 72-103: the buffer does not exist yet; create it, read everything
    from the previous transform and call the process method. *)
Definition fillBuffer (fuel : nat) (alloc : bool) (w : World) (buf : list byte)
  : result (World * list byte * Z) :=
  let w0 := with_buffer w (xmlBufferCreate alloc) in
  if isNullBuffer (buffer (node w0)) then Returns (w0, buf, -1)
  else
    '(w1, buf1, ret) <- drain fuel w0 buf ;;
    if ret <? 0 then Returns (w1, buf1, -1)
    else
      match buffer (node w1) with
      | BufLive b =>
          let '(b', ret, evs) := xmlSecBufferedProcess (node w1) b in
          let w2 := logged (with_buffer w1 (BufLive b')) evs in
          if ret <? 0 then Returns (w2, buf1, -1) else Returns (w2, buf1, 0)
      | BufNull => Returns (w1, buf1, -1)
      | BufFreed => Undefined
      end.

(** Lines 105-119: copy what fits to the caller's region; when all of it fits
    the transform is done and the buffer is released ([xmlBufferEmpty],
    [xmlBufferFree], and [NULL] in the field).  The read comes here with a
    buffer that is not [NULL]. *)
Definition deliver (w : World) (buf : list byte) : result (World * list byte * Z) :=
  match buffer (node w) with
  | BufLive content =>
      let res := xmlBufferLength content in
      if (res <=? length buf)%nat then
        let out := memcpy buf (xmlBufferContent content) res in
        let t := set_buffer (set_status (node w) xmlSecTransformStatusOk) BufNull in
        Returns (with_node w t, out, Z.of_nat res)
      else
        let res := length buf in
        let out := memcpy buf (xmlBufferContent content) res in
        let wiped := memset (xmlBufferContent content) x00 res in
        Returns (with_buffer w (BufLive (xmlBufferShrink wiped res)), out, Z.of_nat res)
  | BufNull => Undefined
  | BufFreed => Undefined
  end.

(** [xmlSecBufferedTransformRead]: [buf] is [None] for a [NULL] pointer, and
    [size] is the length of the region.  The result has the region as the
    call leaves it and the returned [int].  The transform is a field of the
    world, so the pointer to it is not [NULL]; [alloc] says whether
    [xmlBufferCreate] succeeds if the call comes to it, and [fuel] bounds the
    rounds of the loop. *)
Definition xmlSecBufferedTransformRead
    (fuel : nat) (alloc : bool) (w : World) (buf : option (list byte))
  : result (World * option (list byte) * Z) :=
  let buffered := node w in
  if negb (xmlSecBinTransformCheckSubType buffered xmlSecBinTransformSubTypeBuffered)
  then Returns (w, buf, -1)
  else
    match buf with
    | None => Returns (w, buf, 0)
    | Some region =>
        if (length region =? 0)%nat then Returns (w, buf, 0)
        else if negb (status_eqb (status buffered) xmlSecTransformStatusNone)
                || isNull (prev buffered)
        then Returns (w, buf, 0)
        else
          '(w1, region1, ret) <-
             (if isNullBuffer (buffer buffered) then fillBuffer fuel alloc w region
              else Returns (w, region, 0)) ;;
          if ret <? 0 then Returns (w1, Some region1, -1)
          else
            '(w2, region2, res) <- deliver w1 region1 ;;
            Returns (w2, Some region2, res)
    end.

(** [xmlSecBufferedTransformWrite]: adds the data to the internal buffer.
    [size], a [size_t], goes to [xmlBufferAdd] as its [int len]. *)
Definition xmlSecBufferedTransformWrite
    (alloc : bool) (w : World) (buf : option (list byte)) : result (World * Z) :=
  let buffered := node w in
  if negb (xmlSecBinTransformCheckSubType buffered xmlSecBinTransformSubTypeBuffered)
  then Returns (w, -1)
  else
    match buf with
    | None => Returns (w, 0)
    | Some data =>
        let size := length data in
        if (size =? 0)%nat then Returns (w, 0)
        else if negb (status_eqb (status buffered) xmlSecTransformStatusNone)
                || isNull (next buffered)
        then Returns (w, 0)
        else
          let w0 := if isNullBuffer (buffer buffered)
                    then with_buffer w (xmlBufferCreate alloc) else w in
          match buffer (node w0) with
          | BufNull => Returns (w0, -1)
          | BufLive b =>
              b' <- xmlBufferAddInt b data (int_of_size size) ;;
              Returns (with_buffer w0 (BufLive b'), 0)
          | BufFreed => Undefined
          end
    end.

(** [xmlSecBufferedTransformFlush]: processes the buffer and writes the result
    to the next transform. *)
Definition xmlSecBufferedTransformFlush (w : World) : result (World * Z) :=
  let buffered := node w in
  if negb (xmlSecBinTransformCheckSubType buffered xmlSecBinTransformSubTypeBuffered)
  then Returns (w, -1)
  else if negb (status_eqb (status buffered) xmlSecTransformStatusNone)
          || isNull (next buffered) || isNullBuffer (buffer buffered)
  then Returns (w, 0)
  else
    match buffer buffered with
    | BufLive b =>
        let '(b', ret, evs) := xmlSecBufferedProcess buffered b in
        let w1 := logged (with_buffer w (BufLive b')) evs in
        if ret <? 0 then Returns (w1, -1)
        else
          let data := firstn (xmlBufferLength b') (xmlBufferContent b') in
          let '(d', ret) := xmlSecBinTransformWrite (downstream w1) data in
          let w2 := logged (with_downstream w1 d') [EvNextWrite data ret] in
          if ret <? 0 then Returns (w2, -1)
          else
            let t := set_buffer (set_status (node w2) xmlSecTransformStatusOk) BufNull in
            let w3 := with_node w2 t in
            let '(d'', ret) := xmlSecBinTransformFlush (downstream w3) in
            let w4 := logged (with_downstream w3 d'') [EvNextFlush ret] in
            if ret <? 0 then Returns (w4, -1) else Returns (w4, 0)
    | BufNull => Returns (w, 0)
    | BufFreed => Undefined
    end.

(** [xmlSecBufferedDestroy]: empties and frees the buffer when the field is
    not [NULL]; the field itself is not written. *)
Definition xmlSecBufferedDestroy (w : World) : result World :=
  let buffered := node w in
  if negb (isNullBuffer (buffer buffered)) then
    p1 <- xmlBufferEmpty (buffer buffered) ;;
    p2 <- xmlBufferFree p1 ;;
    Returns (with_buffer w p2)
  else Returns w.

(** ** Sequences of calls *)

Inductive Call : Type :=
| CallRead (buf : option (list byte)) (alloc : bool)
| CallWrite (buf : option (list byte)) (alloc : bool)
| CallFlush.

Inductive Reply : Type :=
| ReplyRead (buf : option (list byte)) (ret : Z)
| ReplyWrite (ret : Z)
| ReplyFlush (ret : Z).

Definition call (fuel : nat) (w : World) (c : Call) : result (World * Reply) :=
  match c with
  | CallRead buf alloc =>
      '(w', buf', ret) <- xmlSecBufferedTransformRead fuel alloc w buf ;;
      Returns (w', ReplyRead buf' ret)
  | CallWrite buf alloc =>
      '(w', ret) <- xmlSecBufferedTransformWrite alloc w buf ;;
      Returns (w', ReplyWrite ret)
  | CallFlush =>
      '(w', ret) <- xmlSecBufferedTransformFlush w ;;
      Returns (w', ReplyFlush ret)
  end.

Fixpoint run (fuel : nat) (w : World) (cs : list Call) : result (World * list Reply) :=
  match cs with
  | [] => Returns (w, [])
  | c :: cs' =>
      '(w1, r) <- call fuel w c ;;
      '(w2, rs) <- run fuel w1 cs' ;;
      Returns (w2, r :: rs)
  end.

(** The [int] a reply carries, and the bytes a read reply hands to the caller:
    the first [ret] bytes of the region. *)
Definition reply_ret (r : Reply) : Z :=
  match r with
  | ReplyRead _ ret => ret
  | ReplyWrite ret => ret
  | ReplyFlush ret => ret
  end.

Definition delivered (r : Reply) : list byte :=
  match r with
  | ReplyRead (Some region) ret => firstn (Z.to_nat ret) region
  | _ => []
  end.

End Operations.

(** ** Notions the properties are stated with *)

Section Notions.

Context {U : Type} `{BinTransform U}.

(** [exposes u B]: read after read, the transform in state [u] hands out the
    bytes of [B] in order, at least one and at most [size] bytes per read
    ([chunk_of]), and returns 0 once [B] is used up. *)
Definition chunk_of (B buf : list byte) (r : U * list byte * Z) : Prop :=
  let '(_, buf', ret) := r in
  1 <= ret <= Z.of_nat (length buf) /\ ret <= Z.of_nat (length B) /\
  firstn (Z.to_nat ret) buf' = firstn (Z.to_nat ret) B.

Inductive exposes : U -> list byte -> Prop :=
| exposes_end : forall u,
    (forall buf, snd (xmlSecBinTransformRead u buf) = 0) ->
    exposes u []
| exposes_more : forall u B,
    B <> [] ->
    (forall buf, buf <> [] -> chunk_of B buf (xmlSecBinTransformRead u buf)) ->
    (forall buf, buf <> [] ->
       exposes (fst (fst (xmlSecBinTransformRead u buf)))
               (skipn (Z.to_nat (snd (xmlSecBinTransformRead u buf))) B)) ->
    exposes u B.

End Notions.

(** [chunks P sizes]: [P] cut from the front into pieces of the given sizes;
    the pieces after the end of [P] are empty. *)
Fixpoint chunks (P : list byte) (sizes : list nat) : list (list byte) :=
  match sizes with
  | [] => []
  | k :: sizes' => firstn k P :: chunks (skipn k P) sizes'
  end.

Definition total (sizes : list nat) : nat := fold_right Nat.add 0%nat sizes.

Definition nonzero (r : Reply) : bool := negb (reply_ret r =? 0).

(** [scratch first evs last]: the reads of [evs] were handed one region in
    turn, [first] at the start, each later one as the read before left it,
    [last] at the end. *)
Inductive scratch : list byte -> list Event -> list byte -> Prop :=
| scratch_nil : forall region, scratch region [] region
| scratch_cons : forall region region' ret evs last,
    scratch region' evs last ->
    scratch region (EvPrevRead region region' ret :: evs) last.

(** No call of the process method and no write to the next transform in [evs]
    has failed. *)
Definition succeeded (e : Event) : Prop :=
  match e with
  | EvCallback _ ret => 0 <= ret
  | EvNextWrite _ ret => 0 <= ret
  | _ => True
  end.

Definition isRead (c : Call) : bool :=
  match c with CallRead _ _ => true | _ => false end.

Definition isFlush (c : Call) : bool :=
  match c with CallFlush => true | _ => false end.

(** ** Concrete neighbours and methods for the scenarios *)

(** A previous transform that plays a script: each step gives some bytes (as
    many as fit the region, the rest stays for the next read) or fails. *)
Inductive Step : Type :=
| Give (data : list byte)
| Fail.

Definition Script : Type := list Step.

Definition script_read (s : Script) (buf : list byte) : Script * list byte * Z :=
  match s with
  | [] => ([], buf, 0)
  | Fail :: s' => (s', buf, -1)
  | Give data :: s' =>
      let n := Nat.min (length buf) (length data) in
      let s'' := match skipn n data with [] => s' | rest => Give rest :: s' end in
      (s'', memcpy buf data n, Z.of_nat n)
  end.

#[export] Instance Script_transform : BinTransform Script := {
  readBin := script_read;
  writeBin := fun s _ => (s, 0);
  flushBin := fun s => (s, 0)
}.

(** The data a script gives when nothing fails. *)
Fixpoint script_data (s : Script) : list byte :=
  match s with
  | [] => []
  | Give data :: s' => data ++ script_data s'
  | Fail :: s' => script_data s'
  end.

Fixpoint script_sound (s : Script) : bool :=
  match s with
  | [] => true
  | Give [] :: _ => false
  | Give _ :: s' => script_sound s'
  | Fail :: _ => false
  end.

(** A next transform that records what it is sent; [writeRet] and [flushRet]
    are what its write and flush return. *)
Record Sink : Type := mkSink {
  writeRet : Z;
  flushRet : Z;
  received : list (list byte);
  flushed : nat
}.

#[export] Instance Sink_transform : BinTransform Sink := {
  readBin := fun s buf => (s, buf, 0);
  writeBin := fun s data =>
    ({| writeRet := writeRet s; flushRet := flushRet s;
        received := received s ++ [data]; flushed := flushed s |}, writeRet s);
  flushBin := fun s =>
    ({| writeRet := writeRet s; flushRet := flushRet s;
        received := received s; flushed := S (flushed s) |}, flushRet s)
}.

(** The four bytes of "MARK". *)
Definition marker : list byte := [x4d; x41; x52; x4b].

Definition identityMethod : xmlSecBufferedProcessMethod := fun b => (b, 0).

Definition markerMethod : xmlSecBufferedProcessMethod := fun b => (b ++ marker, 0).

Definition failingMethod : xmlSecBufferedProcessMethod := fun b => (b, -1).

Definition clearingMethod : xmlSecBufferedProcessMethod := fun _ => ([], 0).

Definition bufferedId (m : option xmlSecBufferedProcessMethod) : xmlSecBufferedTransformId :=
  {| binSubType := xmlSecBinTransformSubTypeBuffered; bufferedProcess := m |}.

(** A transform as the chain hands it over: no status, no buffer. *)
Definition newTransform (m : option xmlSecBufferedProcessMethod)
    (prev next : xmlSecBinTransformPtr) : xmlSecBufferedTransform :=
  {| id := bufferedId m; status := xmlSecTransformStatusNone;
     prev := prev; next := next; buffer := BufNull |}.

Definition sink (writeRet flushRet : Z) : Sink :=
  {| writeRet := writeRet; flushRet := flushRet; received := []; flushed := 0 |}.

Definition newWorld (m : option xmlSecBufferedProcessMethod)
    (prev next : xmlSecBinTransformPtr) (s : Script) (k : Sink) : World :=
  {| node := newTransform m prev next; upstream := s; downstream := k; calls := [] |}.

Definition here : xmlSecBinTransformPtr := Some 1%N.

(** A method with a result shorter than its input, as a digest has. *)
Definition firstByteMethod : xmlSecBufferedProcessMethod := fun b => (firstn 1 b, 0).

(** The bytes of "AB", "CD", "XY" and "Z", and a region of [n] zero bytes. *)
Definition bytesAB : list byte := [x41; x42].
Definition bytesCD : list byte := [x43; x44].
Definition bytesXY : list byte := [x58; x59].
Definition bytesZ : list byte := [x5a].
Definition blank (n : nat) : list byte := repeat x00 n.

(** A transform that is read from: it has a previous transform only. *)
Definition pullWorld (m : option xmlSecBufferedProcessMethod) (s : Script) : World :=
  newWorld m here None s (sink 0 0).

(** A transform that is written to: it has a next transform only. *)
Definition pushWorld (m : option xmlSecBufferedProcessMethod) (k : Sink) : World :=
  newWorld m None here [] k.

(** A transform in the middle of a chain. *)
Definition chainWorld (m : option xmlSecBufferedProcessMethod) (s : Script) (k : Sink)
  : World :=
  newWorld m here here s k.

(** The worlds of the scenarios: a transform that was written "AB" and "CD"
    and marks what it processes; one that is done; one that was written "AB"
    and whose next transform refuses the write, or fails to flush; one with
    no neighbour; one whose previous transform fails after "XY"; one whose
    previous transform gives "XY" and then "Z". *)
Definition heldWorld : World :=
  with_buffer (pushWorld (Some markerMethod) (sink 0 0)) (BufLive (bytesAB ++ bytesCD)).

Definition doneWorld : World :=
  with_node (pushWorld (Some markerMethod) (sink 0 0))
    (set_status (node (pushWorld (Some markerMethod) (sink 0 0))) xmlSecTransformStatusOk).

Definition refusedWorld : World :=
  with_buffer (pushWorld (Some markerMethod) (sink (-1) 0)) (BufLive bytesAB).

Definition unflushedWorld : World :=
  with_buffer (pushWorld (Some markerMethod) (sink 0 (-1))) (BufLive bytesAB).

Definition aloneWorld : World := newWorld None None None [] (sink 0 0).

Definition brokenWorld : World := pullWorld (Some identityMethod) [Give bytesXY; Fail].

Definition sourceWorld : World := pullWorld (Some identityMethod) [Give bytesXY; Give bytesZ].

(** Data of 2^31 bytes, one more than an [int] can count. *)
Definition hugeData : list byte := repeat x41 (2 ^ 31).

(** The same previous transform before a transform that marks what it
    processes. *)
Definition markedWorld : World := pullWorld (Some markerMethod) [Give bytesXY; Give bytesZ].

(** A transform of another subtype, and a transform in the middle of a chain
    that was written "AB" and "CD". *)
Definition otherWorld : World :=
  {| node := {| id := {| binSubType := xmlSecBinTransformSubTypeOther;
                         bufferedProcess := Some markerMethod |};
                status := xmlSecTransformStatusNone;
                prev := here; next := here; buffer := BufNull |};
     upstream := [Give bytesXY]; downstream := sink 0 0; calls := [] |}.

Definition mixedWorld : World :=
  with_buffer (chainWorld (Some markerMethod) [Give bytesXY] (sink 0 0))
    (BufLive (bytesAB ++ bytesCD)).

(** The world a returned call leaves, [w] when it did not return. *)
Definition worldAfter {A : Type} (w : @World Script Sink)
    (r : result (@World Script Sink * A)) : @World Script Sink :=
  match r with
  | Returns (w', _) => w'
  | _ => w
  end.

Definition worldAfterRead (w : @World Script Sink)
    (r : result (@World Script Sink * option (list byte) * Z)) : @World Script Sink :=
  match r with
  | Returns (w', _, _) => w'
  | _ => w
  end.

(** The transform passes the subtype check of the operations. *)
Definition isBuffered (t : xmlSecBufferedTransform) : Prop :=
  binSubType (id t) = xmlSecBinTransformSubTypeBuffered.

(** The bytes behind a buffer field: those of the live buffer, none otherwise. *)
Definition accumulated (p : xmlBufferPtr) : list byte :=
  match p with
  | BufLive b => b
  | _ => []
  end.

(** What the process method of the transform id makes of the content [b] and
    what it returns; with no method the content stays and the result is 0. *)
Definition processed (t : xmlSecBufferedTransform) (b : xmlBuffer) : xmlBuffer * Z :=
  match bufferedProcess (id t) with
  | Some method => method b
  | None => (b, 0)
  end.

(** What a process call on [b] adds to the log of a buffered transform: the
    call, and the call of the method when the id has one. *)
Definition processLog (t : xmlSecBufferedTransform) (b : xmlBuffer) : list Event :=
  EvProcess b ::
  match bufferedProcess (id t) with
  | Some method => [EvCallback b (snd (method b))]
  | None => []
  end.

Arguments processed : simpl never.
Arguments processLog : simpl never.

Definition writeCalls (datas : list (list byte)) : list Call :=
  map (fun data => CallWrite (Some data) true) datas.

Definition readCalls (regions : list (list byte)) : list Call :=
  map (fun region => CallRead (Some region) true) regions.

Section WorldNotions.

Context {U D : Type}.

(** [remaining w R]: the bytes still to be handed out by reads are [R]; once
    there are none the transform is done. *)
Definition remaining (w : @World U D) (R : list byte) : Prop :=
  (status (node w) = xmlSecTransformStatusNone /\ buffer (node w) = BufLive R /\ R <> []) \/
  (status (node w) = xmlSecTransformStatusOk /\ R = []).

(** A transform with no status and no buffer: the next read would fill the
    buffer and call the process method. *)
Definition armed (w : @World U D) : bool :=
  status_eqb (status (node w)) xmlSecTransformStatusNone && isNullBuffer (buffer (node w)).

End WorldNotions.

(** ** Notions for the properties of single calls and of runs *)

(** Data whose size an [int] can hold. *)
Definition fits (data : list byte) : Prop := Z.of_nat (length data) <= INT_MAX.

(** A call whose data, when it is a write, has a size an [int] can hold. *)
Definition sized (c : Call) : Prop :=
  match c with
  | CallWrite (Some data) _ => fits data
  | _ => True
  end.

(** An argument that carries no data: a [NULL] pointer or a size of 0. *)
Definition absent (buf : option (list byte)) : Prop := buf = None \/ buf = Some [].

(** A read or a write without data, or a flush. *)
Definition idle (c : Call) : Prop :=
  match c with
  | CallRead buf _ => absent buf
  | CallWrite buf _ => absent buf
  | CallFlush => True
  end.

(** The [size] that goes with [buf]. *)
Definition sizeOf (buf : option (list byte)) : nat :=
  match buf with
  | None => 0
  | Some region => length region
  end.

(** Writes of the given data, each with its own outcome of [xmlBufferCreate]. *)
Definition writeItems (items : list (list byte * bool)) : list Call :=
  map (fun item => CallWrite (Some (fst item)) (snd item)) items.

(** What a sequence of writes leaves in the buffer and what the writes
    return, [present] telling whether the buffer exists: as long as it does
    not, a write whose [xmlBufferCreate] fails stores nothing. *)
Fixpoint stored (present : bool) (items : list (list byte * bool)) : list (list byte) :=
  match items with
  | [] => []
  | (data, alloc) :: items' =>
      if present || alloc then data :: stored true items' else stored false items'
  end.

Fixpoint storedRets (present : bool) (items : list (list byte * bool)) : list Z :=
  match items with
  | [] => []
  | (_, alloc) :: items' =>
      if present || alloc then 0 :: storedRets true items' else -1 :: storedRets false items'
  end.

Fixpoint storedAny (present : bool) (items : list (list byte * bool)) : bool :=
  match items with
  | [] => present
  | (_, alloc) :: items' => storedAny (present || alloc) items'
  end.

(** The bytes the reads of a log delivered: of each read that returned [ret],
    the first [ret] bytes of the region as it left it. *)
Definition gathered (evs : list Event) : list byte :=
  flat_map (fun e => match e with
                     | EvPrevRead _ out ret => firstn (Z.to_nat ret) out
                     | _ => []
                     end) evs.

(** A read from the previous transform that returned more than 0. *)
Definition gave (e : Event) : Prop :=
  match e with
  | EvPrevRead _ _ ret => 0 < ret
  | _ => False
  end.

(** A call on the next transform. *)
Definition isNext (e : Event) : bool := isNextWrite e || isNextFlush e.

Section ShapeNotions.

Context {U D : Type} `{BinTransform U}.

(** The read method never claims more bytes than the region has. *)
Definition bounded_reads : Prop :=
  forall (u : U) (buf : list byte), snd (readBin u buf) <= Z.of_nat (length buf).

(** What every returned call keeps: the id and the links, a status that does
    not go back, no buffer once the status is Ok, no freed buffer. *)
Definition keeps (w w' : @World U D) : Prop :=
  id (node w') = id (node w) /\
  prev (node w') = prev (node w) /\ next (node w') = next (node w) /\
  (status (node w) = xmlSecTransformStatusOk -> w' = w) /\
  (status (node w') = xmlSecTransformStatusOk ->
     status (node w) = xmlSecTransformStatusOk \/ buffer (node w') = BufNull) /\
  (buffer (node w) <> BufFreed -> buffer (node w') <> BufFreed).

End ShapeNotions.

(** * Properties *)

Unset Implicit Arguments.

(** ** Lists, regions and counts *)

Lemma count_app : forall p l1 l2, count p (l1 ++ l2) = (count p l1 + count p l2)%nat.
Proof.
  intros p l1 l2. unfold count. rewrite filter_app, length_app. reflexivity.
Qed.

Lemma memcpy_front : forall dst src n,
  (n <= length src)%nat -> firstn n (memcpy dst src n) = firstn n src.
Proof.
  intros dst src n Hn. unfold memcpy.
  rewrite firstn_app, firstn_firstn, Nat.min_id, length_firstn.
  replace (n - Nat.min n (length src))%nat with 0%nat by lia.
  rewrite firstn_O, app_nil_r. reflexivity.
Qed.

Lemma memcpy_rest : forall dst src n,
  (n <= length src)%nat -> skipn n (memcpy dst src n) = skipn n dst.
Proof.
  intros dst src n Hn. unfold memcpy.
  rewrite skipn_app, length_firstn.
  replace (n - Nat.min n (length src))%nat with 0%nat by lia.
  rewrite skipn_O.
  rewrite skipn_all2 by (rewrite length_firstn; lia). reflexivity.
Qed.

Lemma memcpy_length : forall dst src n,
  (n <= length src)%nat -> (n <= length dst)%nat ->
  length (memcpy dst src n) = length dst.
Proof.
  intros dst src n Hs Hd. unfold memcpy.
  rewrite length_app, length_firstn, length_skipn. lia.
Qed.

Lemma written_length : forall buf raw, length (written buf raw) = length buf.
Proof.
  intros buf raw. unfold written.
  rewrite length_app, length_firstn, length_skipn. lia.
Qed.

Lemma written_same : forall buf raw, length raw = length buf -> written buf raw = raw.
Proof.
  intros buf raw Hl. unfold written.
  rewrite <- Hl, firstn_all, skipn_all2 by lia. apply app_nil_r.
Qed.

(** The previous transform gives the region back with the size it had. *)
Lemma read_keeps_size : forall (T : Type) (HT : BinTransform T) (t t' : T) buf buf' ret,
  xmlSecBinTransformRead t buf = (t', buf', ret) -> length buf' = length buf.
Proof.
  intros T HT t t' buf buf' ret. unfold xmlSecBinTransformRead.
  destruct (readBin t buf) as [[t1 raw] r1]. intros Hr; inversion Hr; subst.
  apply written_length.
Qed.

(** Wiping the front of the buffer before it is shrunk does not show. *)
Lemma shrink_wiped : forall b n,
  (n <= length b)%nat -> xmlBufferShrink (memset (xmlBufferContent b) x00 n) n = skipn n b.
Proof.
  intros b n Hn. unfold xmlBufferShrink, memset, xmlBufferContent.
  rewrite skipn_app, repeat_length, Nat.sub_diag, skipn_O.
  rewrite skipn_all2 by (rewrite repeat_length; lia). reflexivity.
Qed.

Lemma total_at_least : forall sizes,
  Forall (fun k => (1 <= k)%nat) sizes -> (length sizes <= total sizes)%nat.
Proof.
  induction 1 as [|k sizes Hk _ IH]; unfold total in *; simpl; lia.
Qed.

Lemma firstn_plus : forall (k m : nat) (P : list byte),
  firstn k P ++ firstn m (skipn k P) = firstn (k + m) P.
Proof.
  induction k as [|k IH]; intros m P; simpl; [reflexivity|].
  destruct P as [|x P]; simpl.
  - now rewrite firstn_nil.
  - now rewrite IH.
Qed.

Lemma chunks_concat : forall sizes P, concat (chunks P sizes) = firstn (total sizes) P.
Proof.
  induction sizes as [|k sizes IH]; intros P; simpl.
  - reflexivity.
  - rewrite IH. apply firstn_plus.
Qed.

Lemma chunks_nil : forall sizes, Forall (fun c => c = []) (chunks [] sizes).
Proof.
  induction sizes as [|k sizes IH]; simpl; constructor.
  - apply firstn_nil.
  - rewrite skipn_nil. exact IH.
Qed.

(** A size that fits an [int] is the [int] it becomes, and [xmlBufferAdd]
    then adds all of the data. *)
Lemma int_of_size_fits : forall n, Z.of_nat n <= INT_MAX -> int_of_size n = Z.of_nat n.
Proof.
  intros n Hn. unfold int_of_size, INT_MAX in *.
  change (2 ^ 31) with 2147483648 in *. change (2 ^ 32) with 4294967296.
  rewrite Z.mod_small by lia. lia.
Qed.

Lemma add_fits : forall b data,
  data <> [] -> fits data ->
  xmlBufferAddInt b data (int_of_size (length data)) = Returns (b ++ data).
Proof.
  intros b data Hd Hf. rewrite (int_of_size_fits _ Hf). unfold xmlBufferAddInt.
  assert (Hpos : 0 < Z.of_nat (length data)) by (destruct data; [congruence|simpl; lia]).
  destruct (Z.of_nat (length data) <? -1) eqn:E1; [apply Z.ltb_lt in E1; lia|].
  destruct (Z.of_nat (length data) =? 0) eqn:E2; [apply Z.eqb_eq in E2; lia|].
  destruct (Z.of_nat (length data) =? -1) eqn:E3; [apply Z.eqb_eq in E3; lia|].
  rewrite Z.ltb_irrefl, Nat2Z.id. unfold xmlBufferAdd. now rewrite firstn_all.
Qed.

(** The fields of a world that was built from another. *)
Ltac fields :=
  cbn [node upstream downstream calls with_node with_buffer with_upstream
       with_downstream logged set_buffer set_status id status prev next buffer].

(** ** The guards of the operations *)

Section Guards.

Context {U D : Type} `{BinTransform U} `{BinTransform D}.

Implicit Types w : @World U D.

Lemma check_buffered : forall t,
  isBuffered t -> xmlSecBinTransformCheckSubType t xmlSecBinTransformSubTypeBuffered = true.
Proof.
  intros t Ht. unfold xmlSecBinTransformCheckSubType. rewrite Ht. reflexivity.
Qed.

Lemma with_buffer_same : forall w, with_buffer w (buffer (node w)) = w.
Proof. intros [[i s p n b] u d c]. reflexivity. Qed.

Lemma read_not_pending : forall fuel alloc w buf,
  isBuffered (node w) ->
  status (node w) = xmlSecTransformStatusOk \/ prev (node w) = None ->
  xmlSecBufferedTransformRead fuel alloc w buf = Returns (w, buf, 0).
Proof.
  intros fuel alloc w buf Hb Hg. unfold xmlSecBufferedTransformRead.
  rewrite (check_buffered _ Hb). simpl.
  destruct buf as [region|]; [|reflexivity].
  destruct (length region =? 0)%nat; [reflexivity|].
  destruct Hg as [Hs|Hp]; [rewrite Hs|rewrite Hp]; simpl;
    [|rewrite orb_true_r]; reflexivity.
Qed.

Lemma write_not_pending : forall alloc w buf,
  isBuffered (node w) ->
  status (node w) = xmlSecTransformStatusOk \/ next (node w) = None ->
  xmlSecBufferedTransformWrite alloc w buf = Returns (w, 0).
Proof.
  intros alloc w buf Hb Hg. unfold xmlSecBufferedTransformWrite.
  rewrite (check_buffered _ Hb). simpl.
  destruct buf as [data|]; [|reflexivity].
  destruct (length data =? 0)%nat; [reflexivity|].
  destruct Hg as [Hs|Hp]; [rewrite Hs|rewrite Hp]; simpl;
    [|rewrite orb_true_r]; reflexivity.
Qed.

Lemma flush_not_pending : forall w,
  isBuffered (node w) ->
  status (node w) = xmlSecTransformStatusOk \/ next (node w) = None ->
  xmlSecBufferedTransformFlush w = Returns (w, 0).
Proof.
  intros w Hb Hg. unfold xmlSecBufferedTransformFlush.
  rewrite (check_buffered _ Hb). simpl.
  destruct Hg as [Hs|Hp]; [rewrite Hs|rewrite Hp]; simpl;
    [|rewrite orb_true_r]; reflexivity.
Qed.

Lemma run_finalized : forall fuel cs w,
  isBuffered (node w) ->
  status (node w) = xmlSecTransformStatusOk ->
  exists rs, run fuel w cs = Returns (w, rs) /\ Forall (fun r => reply_ret r = 0) rs.
Proof.
  intros fuel cs w Hb Hs.
  induction cs as [|c cs [rs [Hrun Hrs]]].
  - exists []. split; [reflexivity|constructor].
  - destruct c as [buf alloc|buf alloc|]; simpl.
    + rewrite read_not_pending by auto. simpl. rewrite Hrun. simpl.
      eexists; split; [reflexivity|]. constructor; [reflexivity|exact Hrs].
    + rewrite write_not_pending by auto. simpl. rewrite Hrun. simpl.
      eexists; split; [reflexivity|]. constructor; [reflexivity|exact Hrs].
    + rewrite flush_not_pending by auto. simpl. rewrite Hrun. simpl.
      eexists; split; [reflexivity|]. constructor; [reflexivity|exact Hrs].
Qed.

Lemma destroy_fields : forall w w',
  xmlSecBufferedDestroy w = Returns w' ->
  id (node w') = id (node w) /\ status (node w') = status (node w) /\
  prev (node w') = prev (node w) /\ next (node w') = next (node w) /\
  upstream w' = upstream w /\ downstream w' = downstream w /\ calls w' = calls w.
Proof.
  intros w w'. unfold xmlSecBufferedDestroy.
  destruct (buffer (node w)); simpl; intros Hd; inversion Hd; subst; simpl; auto 10.
Qed.

(** C3: on a transform whose status is Ok (Finalized), a read returns 0 and a
    write and a flush return 0 (success), each leaving the transform, its
    neighbours, the caller's region and the log of outgoing calls as they
    were; so no sequence of reads, writes and flushes changes anything, and
    the status stays Ok, also through a destroy. *)
Theorem finalized_is_terminal : forall w,
  isBuffered (node w) ->
  status (node w) = xmlSecTransformStatusOk ->
  (forall fuel alloc buf, xmlSecBufferedTransformRead fuel alloc w buf = Returns (w, buf, 0)) /\
  (forall alloc buf, xmlSecBufferedTransformWrite alloc w buf = Returns (w, 0)) /\
  xmlSecBufferedTransformFlush w = Returns (w, 0) /\
  (forall fuel cs, exists rs,
      run fuel w cs = Returns (w, rs) /\ Forall (fun r => reply_ret r = 0) rs) /\
  (forall w', xmlSecBufferedDestroy w = Returns w' ->
      status (node w') = xmlSecTransformStatusOk).
Proof.
  intros w Hb Hs. repeat split.
  - intros. apply read_not_pending; auto.
  - intros. apply write_not_pending; auto.
  - apply flush_not_pending; auto.
  - intros. apply run_finalized; auto.
  - intros w' Hd. apply destroy_fields in Hd. rewrite <- Hs. apply Hd.
Qed.

(** C8: a transform without previous transform returns 0 from every read and
    stays as it was, whatever its state; a transform without next transform
    returns 0 from every write, adding nothing to the buffer, and from every
    flush, with no effect. *)
Theorem no_neighbour_is_inert : forall w,
  isBuffered (node w) ->
  (prev (node w) = None ->
     forall fuel alloc buf,
       xmlSecBufferedTransformRead fuel alloc w buf = Returns (w, buf, 0)) /\
  (next (node w) = None ->
     (forall alloc buf, xmlSecBufferedTransformWrite alloc w buf = Returns (w, 0)) /\
     xmlSecBufferedTransformFlush w = Returns (w, 0)).
Proof.
  intros w Hb. split.
  - intros Hp fuel alloc buf. apply read_not_pending; auto.
  - intros Hn. split.
    + intros. apply write_not_pending; auto.
    + apply flush_not_pending; auto.
Qed.

End Guards.

(** ** Flush *)

Section Flush.

Context {U D : Type} `{BinTransform U} `{BinTransform D}.

Implicit Types w : @World U D.

(** What [xmlSecBufferedProcess] logs: itself once, and the method when the
    transform has one. *)
Lemma process_events : forall t b b' ret evs,
  xmlSecBufferedProcess t b = (b', ret, evs) ->
  evs = [EvProcess b] \/ evs = [EvProcess b; EvCallback b ret].
Proof.
  intros t b b' ret evs. unfold xmlSecBufferedProcess.
  destruct (negb _).
  - intros Hp; inversion Hp; auto.
  - destruct (bufferedProcess (id t)) as [method|].
    + destruct (method b) as [b1 r1]. intros Hp; inversion Hp; auto.
    + intros Hp; inversion Hp; auto.
Qed.

Lemma process_counts : forall t b b' ret evs,
  xmlSecBufferedProcess t b = (b', ret, evs) ->
  count isProcess evs = 1%nat /\ count isNextWrite evs = 0%nat /\
  count isNextFlush evs = 0%nat /\ count isPrevRead evs = 0%nat /\
  (count isCallback evs <= 1)%nat.
Proof.
  intros t b b' ret evs Hp.
  destruct (process_events _ _ _ _ _ Hp) as [-> | ->]; cbn; repeat split; lia.
Qed.

(** A process call that fails on a buffered transform is a failure of the method. *)
Lemma process_failure : forall t b b' ret evs,
  isBuffered t ->
  xmlSecBufferedProcess t b = (b', ret, evs) ->
  ret < 0 -> evs = [EvProcess b; EvCallback b ret].
Proof.
  intros t b b' ret evs Ht. unfold xmlSecBufferedProcess.
  rewrite (check_buffered _ Ht). simpl.
  destruct (bufferedProcess (id t)) as [method|].
  - destruct (method b) as [b1 r1]. intros Hp; inversion Hp; auto.
  - intros Hp; inversion Hp; subst. lia.
Qed.

(** On a buffered transform the process call is the call of the method of
    the id. *)
Lemma process_dispatch : forall t b,
  isBuffered t ->
  xmlSecBufferedProcess t b =
    (fst (processed t b), snd (processed t b), processLog t b).
Proof.
  intros t b Ht. unfold xmlSecBufferedProcess, processed, processLog.
  rewrite (check_buffered _ Ht). simpl.
  destruct (bufferedProcess (id t)) as [method|]; [|reflexivity].
  destruct (method b) as [b1 r1]. reflexivity.
Qed.

Lemma check_fails : forall t,
  xmlSecBinTransformCheckSubType t xmlSecBinTransformSubTypeBuffered = false ->
  ~ isBuffered t.
Proof.
  intros t Hc Ht. rewrite (check_buffered _ Ht) in Hc. discriminate.
Qed.

Lemma check_passes : forall t,
  xmlSecBinTransformCheckSubType t xmlSecBinTransformSubTypeBuffered = true ->
  isBuffered t.
Proof.
  intros t. unfold xmlSecBinTransformCheckSubType, isBuffered.
  destruct (binSubType (id t)); [reflexivity|discriminate].
Qed.

Lemma processLog_counts : forall t b,
  count isProcess (processLog t b) = 1%nat /\
  count isNextWrite (processLog t b) = 0%nat /\
  count isNextFlush (processLog t b) = 0%nat /\
  count isPrevRead (processLog t b) = 0%nat /\
  count isCallback (processLog t b) =
    match bufferedProcess (id t) with Some _ => 1%nat | None => 0%nat end.
Proof.
  intros t b. unfold processLog.
  destruct (bufferedProcess (id t)); cbn; auto.
Qed.

(** The flush of a transform that passes all the guards, step by step. *)
Lemma flush_pending : forall w b b' pret pevs d' wret d'' fret,
  isBuffered (node w) ->
  status (node w) = xmlSecTransformStatusNone ->
  next (node w) <> None ->
  buffer (node w) = BufLive b ->
  xmlSecBufferedProcess (node w) b = (b', pret, pevs) ->
  xmlSecBinTransformWrite (downstream w) b' = (d', wret) ->
  xmlSecBinTransformFlush d' = (d'', fret) ->
  xmlSecBufferedTransformFlush w =
    let w1 := logged (with_buffer w (BufLive b')) pevs in
    if pret <? 0 then Returns (w1, -1)
    else
      let w2 := logged (with_downstream w1 d') [EvNextWrite b' wret] in
      if wret <? 0 then Returns (w2, -1)
      else
        let t := set_buffer (set_status (node w2) xmlSecTransformStatusOk) BufNull in
        let w4 := logged (with_downstream (with_node w2 t) d'') [EvNextFlush fret] in
        Returns (w4, if fret <? 0 then -1 else 0).
Proof.
  intros w b b' pret pevs d' wret d'' fret Hb Hs Hn Hbuf Hp Hw Hf.
  unfold xmlSecBufferedTransformFlush.
  rewrite (check_buffered _ Hb), Hs, Hbuf. simpl.
  destruct (next (node w)) as [a|] eqn:En; [|congruence]. simpl.
  rewrite Hp. unfold xmlBufferLength, xmlBufferContent. rewrite firstn_all.
  destruct (pret <? 0); [reflexivity|].
  rewrite Hw. destruct (wret <? 0); [reflexivity|].
  rewrite Hf. destruct (fret <? 0); reflexivity.
Qed.


(** C6, as the code has it: a flush that returns an error before it reaches
    the flush of the next transform leaves the status and the links as they
    were and does not call the flush of the next transform.  Either the
    transform is of another subtype and nothing changed, or the status is
    None, there was a buffer [b], the process method was called on it and
    the buffer now holds [b'], what the method made of [b]: the method
    failed, and nothing else was called, or it succeeded and the one write
    to the next transform, of [b'], failed.  A flush that returns an error
    because the flush of the next transform failed has set the status to Ok
    and released the buffer. *)
Theorem failed_flush_state : forall w w' ret,
  xmlSecBufferedTransformFlush w = Returns (w', ret) ->
  ret < 0 ->
  exists new,
    calls w' = calls w ++ new /\
    prev (node w') = prev (node w) /\ next (node w') = next (node w) /\
    ((~ isBuffered (node w) /\ w' = w /\ new = []) \/
     (exists b b' pret,
        isBuffered (node w) /\
        buffer (node w) = BufLive b /\
        processed (node w) b = (b', pret) /\
        count isNextFlush new = 0%nat /\
        status (node w) = xmlSecTransformStatusNone /\
        status (node w') = xmlSecTransformStatusNone /\
        buffer (node w') = BufLive b' /\
        ((pret < 0 /\ new = processLog (node w) b /\ downstream w' = downstream w) \/
         (0 <= pret /\
          exists wret,
            wret < 0 /\
            new = processLog (node w) b ++ [EvNextWrite b' wret] /\
            xmlSecBinTransformWrite (downstream w) b' = (downstream w', wret)))) \/
     (exists evs fret,
        new = evs ++ [EvNextFlush fret] /\ fret < 0 /\
        status (node w) = xmlSecTransformStatusNone /\
        status (node w') = xmlSecTransformStatusOk /\
        buffer (node w') = BufNull)).
Proof.
  intros w w' ret. unfold xmlSecBufferedTransformFlush.
  destruct (xmlSecBinTransformCheckSubType (node w) _) eqn:Ec; simpl.
  2:{ intros Hf _. inversion Hf; subst. exists []. rewrite app_nil_r.
      repeat split. left. repeat split. now apply check_fails. }
  apply check_passes in Ec.
  destruct (status (node w)) eqn:Es; simpl;
    [|intros Hf Hr; inversion Hf; subst; lia].
  destruct (isNull (next (node w))); simpl;
    [intros Hf Hr; inversion Hf; subst; lia|].
  destruct (buffer (node w)) as [|b|] eqn:Eb; simpl;
    [intros Hf Hr; inversion Hf; subst; lia| |discriminate].
  rewrite (process_dispatch _ _ Ec).
  destruct (processed (node w) b) as [b' pret] eqn:Ep. simpl fst. simpl snd.
  destruct (processLog_counts (node w) b) as (_ & _ & Hc3 & _).
  destruct (pret <? 0) eqn:Epr.
  { apply Z.ltb_lt in Epr.
    intros Hf _. inversion Hf; subst. exists (processLog (node w) b). fields.
    repeat split. right. left. exists b, b', pret. repeat split; auto. }
  apply Z.ltb_ge in Epr. unfold xmlBufferLength, xmlBufferContent. rewrite firstn_all.
  destruct (xmlSecBinTransformWrite _ b') as [d' wret] eqn:Ew. simpl in Ew.
  destruct (wret <? 0) eqn:Ewr.
  { apply Z.ltb_lt in Ewr.
    intros Hf _. inversion Hf; subst.
    exists (processLog (node w) b ++ [EvNextWrite b' wret]). fields.
    split; [now rewrite app_assoc|]. repeat split. right. left.
    exists b, b', pret. repeat split; auto.
    - rewrite count_app, Hc3. reflexivity.
    - right. split; [exact Epr|]. exists wret. repeat split; auto. }
  destruct (xmlSecBinTransformFlush d') as [d'' fret] eqn:Ef.
  destruct (fret <? 0) eqn:Efr; intros Hf Hr; inversion Hf; subst; [|lia].
  apply Z.ltb_lt in Efr.
  eexists (processLog (node w) b ++ [EvNextWrite _ wret; EvNextFlush fret]). fields.
  split; [now rewrite <- !app_assoc|]. repeat split. right. right.
  eexists (processLog (node w) b ++ [EvNextWrite _ wret]), fret.
  split; [now rewrite <- app_assoc|]. auto.
Qed.

End Flush.

(** ** Write and destroy *)

Section WriteDestroy.

Context {U D : Type} `{BinTransform U} `{BinTransform D}.

Implicit Types w : @World U D.

(** One write on a Pending transform with a next transform: the bytes go to
    the end of the buffer, which is created when there is none yet. *)
Lemma write_appends : forall w data,
  isBuffered (node w) ->
  status (node w) = xmlSecTransformStatusNone ->
  next (node w) <> None ->
  buffer (node w) <> BufFreed ->
  data <> [] ->
  fits data ->
  xmlSecBufferedTransformWrite true w (Some data) =
    Returns (with_buffer w (BufLive (accumulated (buffer (node w)) ++ data)), 0).
Proof.
  intros w data Hb Hs Hn Hf Hd Hfit. unfold xmlSecBufferedTransformWrite.
  rewrite (check_buffered _ Hb), Hs. simpl.
  destruct (length data =? 0)%nat eqn:El;
    [apply Nat.eqb_eq in El; destruct data; [congruence|discriminate]|].
  destruct (next (node w)) as [a|] eqn:En; [|congruence]. simpl isNull. cbv iota.
  destruct (buffer (node w)) as [|b|] eqn:Eb; [| |congruence]; simpl.
  - rewrite (add_fits _ _ Hd Hfit). reflexivity.
  - rewrite Eb, (add_fits _ _ Hd Hfit). reflexivity.
Qed.

(** What a write that returns can have done: nothing, or it set the buffer. *)
Lemma write_cases : forall alloc w buf w' ret,
  xmlSecBufferedTransformWrite alloc w buf = Returns (w', ret) ->
  (w' = w /\ (ret = -1 \/ ret = 0)) \/
  (ret = 0 /\ status (node w) = xmlSecTransformStatusNone /\
   buffer (node w) <> BufFreed /\ exists b', w' = with_buffer w (BufLive b')).
Proof.
  intros alloc w buf w' ret. unfold xmlSecBufferedTransformWrite.
  destruct (negb _); [intros Hw; inversion Hw; auto|].
  destruct buf as [data|]; [|intros Hw; inversion Hw; auto].
  destruct (length data =? 0)%nat; [intros Hw; inversion Hw; auto|].
  destruct (status (node w)) eqn:Es; simpl; [|intros Hw; inversion Hw; auto].
  destruct (isNull (next (node w))); simpl; [intros Hw; inversion Hw; auto|].
  destruct (buffer (node w)) as [|b|] eqn:Eb; simpl.
  - destruct alloc; simpl.
    + destruct (xmlBufferAddInt [] data _) as [b'| |]; simpl; try discriminate.
      intros Hw; inversion Hw; subst. right. repeat split; auto; try discriminate.
      exists b'. reflexivity.
    + intros Hw; inversion Hw; subst. left. split; [|auto].
      rewrite <- Eb. apply with_buffer_same.
  - rewrite Eb. destruct (xmlBufferAddInt b data _) as [b'| |]; simpl; try discriminate.
    intros Hw; inversion Hw; subst. right. repeat split; auto; try discriminate.
    exists b'. reflexivity.
  - rewrite Eb. discriminate.
Qed.

(** A write makes no call: the log and both neighbours stay as they were. *)
Lemma write_is_silent : forall alloc w buf w' ret,
  xmlSecBufferedTransformWrite alloc w buf = Returns (w', ret) ->
  calls w' = calls w /\ upstream w' = upstream w /\ downstream w' = downstream w.
Proof.
  intros alloc w buf w' ret Hw.
  destruct (write_cases _ _ _ _ _ Hw) as [[-> _]|(_ & _ & _ & b' & ->)]; auto.
Qed.

(** Writes of non-empty data, one after the other. *)
Lemma run_writes : forall fuel datas w,
  isBuffered (node w) ->
  status (node w) = xmlSecTransformStatusNone ->
  next (node w) <> None ->
  buffer (node w) <> BufFreed ->
  datas <> [] ->
  Forall (fun data => data <> []) datas ->
  Forall fits datas ->
  exists rs,
    run fuel w (writeCalls datas) =
      Returns (with_buffer w (BufLive (accumulated (buffer (node w)) ++ concat datas)), rs) /\
    Forall (fun r => r = ReplyWrite 0) rs.
Proof.
  intros fuel datas. induction datas as [|data datas IH]; intros w Hb Hs Hn Hf Hne Hall Hfit;
    [congruence|].
  inversion Hall as [|? ? Hd Hall']; subst.
  inversion Hfit as [|? ? Hfd Hfit']; subst.
  simpl. rewrite write_appends by assumption. simpl.
  destruct datas as [|data' datas].
  - simpl. exists [ReplyWrite 0]. rewrite app_nil_r. split; [reflexivity|].
    repeat constructor.
  - destruct (IH (with_buffer w (BufLive (accumulated (buffer (node w)) ++ data))))
      as [rs [Hrun Hrs]]; try assumption; try discriminate.
    rewrite Hrun. simpl. eexists; split; [|constructor; [reflexivity|exact Hrs]].
    now rewrite <- app_assoc.
Qed.

(** Writes of non-empty data of any size: when they return, the buffer
    exists. *)
Lemma write_pending : forall w data,
  isBuffered (node w) ->
  status (node w) = xmlSecTransformStatusNone ->
  next (node w) <> None ->
  buffer (node w) <> BufFreed ->
  data <> [] ->
  xmlSecBufferedTransformWrite true w (Some data) =
    (b' <- xmlBufferAddInt (accumulated (buffer (node w))) data (int_of_size (length data)) ;;
     Returns (with_buffer w (BufLive b'), 0)).
Proof.
  intros w data Hb Hs Hn Hf Hd. unfold xmlSecBufferedTransformWrite.
  rewrite (check_buffered _ Hb), Hs. simpl.
  destruct (length data =? 0)%nat eqn:El;
    [apply Nat.eqb_eq in El; destruct data; [congruence|discriminate]|].
  destruct (next (node w)) as [a|] eqn:En; [|congruence]. simpl isNull. cbv iota.
  destruct (buffer (node w)) as [|b|] eqn:Eb; [| |congruence]; simpl.
  - reflexivity.
  - rewrite Eb. reflexivity.
Qed.

Lemma run_writes_live : forall fuel datas w w1 rs,
  isBuffered (node w) ->
  status (node w) = xmlSecTransformStatusNone ->
  next (node w) <> None ->
  buffer (node w) <> BufFreed ->
  datas <> [] ->
  Forall (fun data => data <> []) datas ->
  run fuel w (writeCalls datas) = Returns (w1, rs) ->
  exists b, w1 = with_buffer w (BufLive b).
Proof.
  intros fuel datas. induction datas as [|data datas IH];
    intros w w1 rs Hb Hs Hn Hf Hne Hall; [congruence|].
  inversion Hall as [|? ? Hd Hall']; subst.
  simpl. rewrite (write_pending _ _ Hb Hs Hn Hf Hd).
  destruct (xmlBufferAddInt _ data _) as [b'| |]; simpl; try discriminate.
  destruct datas as [|data' datas].
  - simpl. intros Hr; inversion Hr; subst. exists b'. reflexivity.
  - destruct (run fuel (with_buffer w (BufLive b')) (writeCalls (data' :: datas)))
      as [[w2 rs2]| |] eqn:Erun; simpl; try discriminate.
    intros Hr; inversion Hr; subst.
    assert (Hlive : buffer (node (with_buffer w (BufLive b'))) <> BufFreed)
      by (simpl; discriminate).
    assert (Hmore : data' :: datas <> []) by discriminate.
    destruct (IH (with_buffer w (BufLive b')) _ _ Hb Hs Hn Hlive Hmore Hall' Erun)
      as [b Hw2].
    exists b. rewrite Hw2. reflexivity.
Qed.

(** A write whose size becomes an [int] below -1, or 0, returns 0 as well,
    and adds nothing to the buffer. *)
Lemma write_wraps : forall w data,
  isBuffered (node w) ->
  status (node w) = xmlSecTransformStatusNone ->
  next (node w) <> None ->
  buffer (node w) <> BufFreed ->
  data <> [] ->
  int_of_size (length data) < -1 \/ int_of_size (length data) = 0 ->
  xmlSecBufferedTransformWrite true w (Some data) =
    Returns (with_buffer w (BufLive (accumulated (buffer (node w)))), 0).
Proof.
  intros w data Hb Hs Hn Hf Hd Hlen. unfold xmlSecBufferedTransformWrite.
  rewrite (check_buffered _ Hb), Hs. simpl.
  destruct (length data =? 0)%nat eqn:El;
    [apply Nat.eqb_eq in El; destruct data; [congruence|discriminate]|].
  destruct (next (node w)) as [a|] eqn:En; [|congruence]. simpl isNull. cbv iota.
  assert (Hadd : forall b, xmlBufferAddInt b data (int_of_size (length data)) = Returns b).
  { intros b. unfold xmlBufferAddInt.
    destruct (int_of_size (length data) <? -1) eqn:E1; [reflexivity|].
    destruct (int_of_size (length data) =? 0) eqn:E2; [reflexivity|].
    apply Z.ltb_ge in E1. apply Z.eqb_neq in E2. lia. }
  destruct (buffer (node w)) as [|b|] eqn:Eb; [| |congruence]; simpl.
  - rewrite Hadd. reflexivity.
  - rewrite Eb, Hadd. reflexivity.
Qed.

(** C7, for data the [int] of [xmlBufferAdd] can count: on a Pending
    transform with a next transform, writes of non-empty data of at most
    [INT_MAX] bytes each (the buffer is created by the first one when there
    is none) all return 0 and leave in the buffer what it held followed by
    all the written bytes in call order; nothing else changes.  No write, of
    any size and in any state, calls the process method or a neighbour. *)
Theorem writes_concatenate : forall fuel w datas,
  isBuffered (node w) ->
  status (node w) = xmlSecTransformStatusNone ->
  next (node w) <> None ->
  buffer (node w) <> BufFreed ->
  datas <> [] ->
  Forall (fun data => data <> []) datas ->
  Forall fits datas ->
  (exists rs,
     run fuel w (writeCalls datas) =
       Returns (with_buffer w (BufLive (accumulated (buffer (node w)) ++ concat datas)), rs) /\
     Forall (fun r => r = ReplyWrite 0) rs) /\
  (forall alloc (w0 : @World U D) buf w1 ret,
     xmlSecBufferedTransformWrite alloc w0 buf = Returns (w1, ret) ->
     calls w1 = calls w0 /\ upstream w1 = upstream w0 /\ downstream w1 = downstream w0).
Proof.
  intros fuel w datas Hb Hs Hn Hf Hne Hall Hfit. split; [|apply write_is_silent].
  apply run_writes; assumption.
Qed.

(** C9, as the code has it: on a transform whose buffer field is [NULL] or a
    live buffer, destroy returns, leaves no live buffer behind, and leaves
    the status, the links, the neighbours and the log as they were, whatever
    the status.  The buffer field is not cleared: with no buffer (a transform
    never written or read, or one that is done) destroy changes nothing and
    can be repeated; after a live buffer the field still holds its address,
    now of freed memory, and a second destroy is undefined. *)
Theorem destroy_releases_buffer : forall w,
  buffer (node w) <> BufFreed ->
  exists w',
    xmlSecBufferedDestroy w = Returns w' /\
    (forall content, buffer (node w') <> BufLive content) /\
    id (node w') = id (node w) /\ status (node w') = status (node w) /\
    prev (node w') = prev (node w) /\ next (node w') = next (node w) /\
    upstream w' = upstream w /\ downstream w' = downstream w /\ calls w' = calls w /\
    (buffer (node w) = BufNull -> w' = w /\ xmlSecBufferedDestroy w' = Returns w') /\
    (forall content, buffer (node w) = BufLive content ->
       buffer (node w') = BufFreed /\ xmlSecBufferedDestroy w' = Undefined).
Proof.
  intros w Hf. unfold xmlSecBufferedDestroy.
  destruct (buffer (node w)) as [|b|] eqn:Eb; [| |congruence]; simpl.
  - exists w. rewrite Eb. simpl. repeat split; auto; discriminate.
  - eexists. split; [reflexivity|]. simpl. repeat split; discriminate.
Qed.

End WriteDestroy.

(** ** Read: the drain loop *)

Section Drain.

Context {U D : Type} `{BinTransform U} `{BinTransform D}.

Implicit Types w : @World U D.

(** Whatever the previous transform does, the loop only reads from it, always
    into the region it was given, and only adds to the buffer. *)
Lemma drain_frame : forall fuel w buf w' buf' ret,
  drain fuel w buf = Returns (w', buf', ret) ->
  exists new,
    calls w' = calls w ++ new /\
    new <> [] /\ filter isPrevRead new = new /\ scratch buf new buf' /\
    length buf' = length buf /\
    id (node w') = id (node w) /\ status (node w') = status (node w) /\
    prev (node w') = prev (node w) /\ next (node w') = next (node w) /\
    downstream w' = downstream w /\
    (ret = -1 \/ ret = 0) /\
    (buffer (node w) = BufNull -> buffer (node w') = BufNull) /\
    (forall acc, buffer (node w) = BufLive acc ->
       exists more, buffer (node w') = BufLive (acc ++ more)).
Proof.
  induction fuel as [|fuel IH]; intros w buf w' buf' ret; simpl; [discriminate|].
  destruct (xmlSecBinTransformRead (upstream w) buf) as [[u1 buf1] r1] eqn:Er.
  pose proof (read_keeps_size _ _ _ _ _ _ _ Er) as Hsize.
  destruct (r1 <? 0).
  { intros Hd; inversion Hd; subst. exists [EvPrevRead buf buf' r1]. simpl.
    repeat split; auto; try discriminate; try (repeat constructor).
    intros acc Ha. exists []. now rewrite app_nil_r. }
  destruct (0 <? r1).
  2:{ intros Hd; inversion Hd; subst. exists [EvPrevRead buf buf' r1]. simpl.
      repeat split; auto; try discriminate; try (repeat constructor).
      intros acc Ha. exists []. now rewrite app_nil_r. }
  simpl. destruct (buffer (node w)) as [|acc|] eqn:Eb; [| |discriminate].
  - intros Hd. apply IH in Hd.
    destruct Hd as (new & Hc & _ & Hfil & Hsc & Hl & Hid & Hst & Hp & Hn & Hdn & Hr & Hnull & Hlive).
    exists (EvPrevRead buf buf1 r1 :: new). simpl in *.
    rewrite Hc, <- app_assoc, Hfil. simpl.
    repeat split; auto; try discriminate; try (constructor; exact Hsc); try congruence.
  - destruct (Z.of_nat (length buf1) <? r1); [discriminate|].
    intros Hd. apply IH in Hd.
    destruct Hd as (new & Hc & _ & Hfil & Hsc & Hl & Hid & Hst & Hp & Hn & Hdn & Hr & _ & Hlive).
    exists (EvPrevRead buf buf1 r1 :: new). simpl in *.
    rewrite Hc, <- app_assoc, Hfil. simpl.
    repeat split; auto; try discriminate; try (constructor; exact Hsc); try congruence.
    intros acc' Ha. inversion Ha; subst.
    destruct (Hlive _ eq_refl) as [more Hmore].
    eexists. rewrite Hmore. unfold xmlBufferAdd. rewrite <- app_assoc. reflexivity.
Qed.

(** Against a previous transform that exposes [B] the loop ends, given fuel
    for one read per byte and one more, and has added exactly [B]. *)
Lemma drain_exposed : forall u B,
  exposes u B ->
  forall fuel w buf acc,
    upstream w = u ->
    buffer (node w) = BufLive acc ->
    buf <> [] ->
    (length B < fuel)%nat ->
    exists w' buf',
      drain fuel w buf = Returns (w', buf', 0) /\
      buffer (node w') = BufLive (acc ++ B).
Proof.
  induction 1 as [u Hend|u B HB Hchunk _ IH]; intros fuel w buf acc Hu Hbuf Hne Hfuel.
  - destruct fuel as [|fuel]; [simpl in Hfuel; lia|]. simpl.
    specialize (Hend buf). rewrite Hu.
    destruct (xmlSecBinTransformRead u buf) as [[u1 buf1] r1]. simpl in Hend. subst r1.
    simpl. eexists _, _. split; [reflexivity|]. simpl. now rewrite app_nil_r.
  - destruct fuel as [|fuel]; [lia|]. simpl. rewrite Hu.
    specialize (Hchunk buf Hne). specialize (IH buf Hne).
    destruct (xmlSecBinTransformRead u buf) as [[u1 buf1] r1]. simpl in *.
    destruct Hchunk as [[Hr1 Hr2] [Hr3 Hfront]].
    assert (Hlen : (Z.to_nat r1 <= length buf1)%nat).
    { assert (Hl : length (firstn (Z.to_nat r1) buf1) = Z.to_nat r1)
        by (rewrite Hfront, length_firstn; lia).
      rewrite length_firstn in Hl. lia. }
    destruct (r1 <? 0) eqn:E1; [apply Z.ltb_lt in E1; lia|].
    destruct (0 <? r1) eqn:E2; [|apply Z.ltb_ge in E2; lia].
    rewrite Hbuf.
    destruct (Z.of_nat (length buf1) <? r1) eqn:E3; [apply Z.ltb_lt in E3; lia|].
    destruct (IH fuel
                (with_buffer (logged (with_upstream w u1) [EvPrevRead buf buf1 r1])
                   (BufLive (xmlBufferAdd acc buf1 (Z.to_nat r1))))
                buf1 (xmlBufferAdd acc buf1 (Z.to_nat r1)))
      as (w' & buf' & Hd & Hb'); try reflexivity.
    + intros ->. simpl in Hlen. lia.
    + rewrite length_skipn. lia.
    + exists w', buf'. split; [exact Hd|]. rewrite Hb'.
      unfold xmlBufferAdd. rewrite Hfront, <- app_assoc, firstn_skipn. reflexivity.
Qed.

(** What the loop has read and kept when it ends: all reads but the last
    gave bytes, which are in the buffer, and the last one gave none. *)
Lemma drain_collects : forall fuel w buf w' buf' ret acc,
  buffer (node w) = BufLive acc ->
  drain fuel w buf = Returns (w', buf', ret) ->
  exists gifts last_in r,
    calls w' = calls w ++ gifts ++ [EvPrevRead last_in buf' r] /\
    Forall gave gifts /\
    r <= 0 /\ ret = (if r <? 0 then -1 else 0) /\
    buffer (node w') = BufLive (acc ++ gathered gifts).
Proof.
  induction fuel as [|fuel IH]; intros w buf w' buf' ret acc Hacc; simpl; [discriminate|].
  destruct (xmlSecBinTransformRead (upstream w) buf) as [[u1 buf1] r1] eqn:Er.
  destruct (r1 <? 0) eqn:E1.
  { intros Hd; inversion Hd; subst. exists [], buf, r1. simpl. rewrite E1, app_nil_r.
    apply Z.ltb_lt in E1.
    split; [reflexivity|]. split; [constructor|]. split; [lia|].
    split; [reflexivity|exact Hacc]. }
  destruct (0 <? r1) eqn:E2.
  2:{ intros Hd; inversion Hd; subst. exists [], buf, r1. simpl. rewrite E1, app_nil_r.
      apply Z.ltb_ge in E2.
      split; [reflexivity|]. split; [constructor|]. split; [exact E2|].
      split; [reflexivity|exact Hacc]. }
  simpl. rewrite Hacc.
  destruct (Z.of_nat (length buf1) <? r1); [discriminate|].
  intros Hd. apply (IH _ _ _ _ _ (xmlBufferAdd acc buf1 (Z.to_nat r1))) in Hd; [|reflexivity].
  destruct Hd as (gifts & last_in & r & Hc & Hg & Hr & Hret & Hbuf).
  exists (EvPrevRead buf buf1 r1 :: gifts), last_in, r.
  simpl in Hc. rewrite Hc, <- app_assoc. split; [reflexivity|].
  split; [constructor; [apply Z.ltb_lt in E2; exact E2|exact Hg]|].
  split; [exact Hr|]. split; [exact Hret|].
  rewrite Hbuf. unfold xmlBufferAdd, gathered. simpl. now rewrite <- app_assoc.
Qed.

End Drain.

(** ** Read: filling the buffer and handing it out *)

Section Read.

Context {U D : Type} `{BinTransform U} `{BinTransform D}.

Implicit Types w : @World U D.

Lemma process_by_id : forall t t' b,
  id t = id t' -> xmlSecBufferedProcess t b = xmlSecBufferedProcess t' b.
Proof.
  intros t t' b Hid. unfold xmlSecBufferedProcess, xmlSecBinTransformCheckSubType.
  now rewrite Hid.
Qed.

(** The first part of a read that finds no buffer: either the creation fails
    and nothing has changed, or the buffer exists from then on, the reads of
    the loop went through the caller's region, and the process method was
    called at most once, after the loop. *)
Lemma fill_frame : forall fuel alloc w buf w1 buf1 r,
  buffer (node w) = BufNull ->
  fillBuffer fuel alloc w buf = Returns (w1, buf1, r) ->
  (alloc = false /\ w1 = w /\ buf1 = buf /\ r = -1) \/
  (alloc = true /\
   exists reads pevs acc,
     calls w1 = calls w ++ reads ++ pevs /\
     reads <> [] /\ filter isPrevRead reads = reads /\ scratch buf reads buf1 /\
     id (node w1) = id (node w) /\ status (node w1) = status (node w) /\
     prev (node w1) = prev (node w) /\ next (node w1) = next (node w) /\
     downstream w1 = downstream w /\
     buffer (node w1) = BufLive acc /\
     ((pevs = [] /\ r = -1) \/
      exists b pr,
        xmlSecBufferedProcess (node w) b = (acc, pr, pevs) /\
        r = if pr <? 0 then -1 else 0) /\
     length buf1 = length buf).
Proof.
  intros fuel alloc w buf w1 buf1 r Hnull. unfold fillBuffer.
  destruct alloc; simpl.
  2:{ intros Hf; inversion Hf; subst. left. repeat split.
      rewrite <- Hnull. apply with_buffer_same. }
  intros Hf. right. split; [reflexivity|].
  destruct (drain fuel (with_buffer w (BufLive [])) buf) as [[[w2 buf2] r2]| |] eqn:Ed;
    simpl in Hf; try discriminate.
  destruct (drain_frame _ _ _ _ _ _ Ed)
    as (reads & Hc & Hne & Hfil & Hsc & Hsize & Hid & Hst & Hp & Hn & Hdn & Hr & _ & Hlive).
  destruct (Hlive [] eq_refl) as [acc Hacc]. simpl in *.
  destruct (r2 <? 0) eqn:E2.
  { inversion Hf; subst. exists reads, [], acc. rewrite app_nil_r.
    repeat split; auto. }
  rewrite Hacc in Hf.
  destruct (xmlSecBufferedProcess (node w2) acc) as [[b' pr] pevs] eqn:Ep.
  rewrite (process_by_id _ (node w) _ Hid) in Ep.
  exists reads, pevs, b'.
  destruct (pr <? 0) eqn:E3; inversion Hf; subst; simpl;
    rewrite Hc, <- app_assoc;
    repeat split; auto; right; exists acc, pr; rewrite E3; auto.
Qed.

(** What the first part of a read leaves in the buffer it created: when the
    last read of the loop failed, the bytes the reads before it gave; when
    it returned 0, what the process method made of these bytes. *)
Lemma fill_collects : forall fuel w buf w1 buf1 r,
  isBuffered (node w) ->
  buffer (node w) = BufNull ->
  fillBuffer fuel true w buf = Returns (w1, buf1, r) ->
  exists gifts last_in lr,
    Forall gave gifts /\ lr <= 0 /\
    (lr < 0 ->
       r = -1 /\
       calls w1 = calls w ++ gifts ++ [EvPrevRead last_in buf1 lr] /\
       buffer (node w1) = BufLive (gathered gifts)) /\
    (lr = 0 ->
       r = (if snd (processed (node w) (gathered gifts)) <? 0 then -1 else 0) /\
       calls w1 = calls w ++ gifts ++ [EvPrevRead last_in buf1 lr] ++
                  processLog (node w) (gathered gifts) /\
       buffer (node w1) = BufLive (fst (processed (node w) (gathered gifts)))).
Proof.
  intros fuel w buf w1 buf1 r Hb Hnull. unfold fillBuffer. simpl.
  destruct (drain fuel (with_buffer w (BufLive [])) buf) as [[[w2 buf2] r2]| |] eqn:Ed;
    simpl; try discriminate.
  destruct (drain_frame _ _ _ _ _ _ Ed) as (_ & _ & _ & _ & _ & _ & Hid & _).
  assert (Hlive : buffer (node (with_buffer w (BufLive []))) = BufLive []) by reflexivity.
  destruct (drain_collects _ _ _ _ _ _ _ Hlive Ed)
    as (gifts & last_in & lr & Hc & Hg & Hle & Hret & Hbuf).
  simpl in Hc, Hbuf, Hid. intros Hf.
  exists gifts, last_in, lr.
  destruct (lr <? 0) eqn:El; subst r2; simpl in Hf.
  - apply Z.ltb_lt in El. inversion Hf; subst.
    split; [exact Hg|]. split; [exact Hle|]. split; [auto|]. lia.
  - apply Z.ltb_ge in El. rewrite Hbuf in Hf.
    rewrite (process_by_id _ (node w) _ Hid), (process_dispatch _ _ Hb) in Hf.
    split; [exact Hg|]. split; [exact Hle|]. split; [lia|]. intros _.
    destruct (snd (processed (node w) (gathered gifts)) <? 0);
      inversion Hf; subst; fields; rewrite Hc, <- !app_assoc; auto.
Qed.

(** The second part of a read: what fits the region is copied to its front;
    the rest of the region stays as it was. *)
Lemma deliver_live : forall w region R,
  buffer (node w) = BufLive R ->
  deliver w region =
    Returns
      (if (length R <=? length region)%nat
       then with_node w (set_buffer (set_status (node w) xmlSecTransformStatusOk) BufNull)
       else with_buffer w (BufLive (skipn (length region) R)),
       memcpy region R (Nat.min (length region) (length R)),
       Z.of_nat (Nat.min (length region) (length R))).
Proof.
  intros w region R Hb. unfold deliver. rewrite Hb.
  unfold xmlBufferLength, xmlBufferContent.
  destruct (length R <=? length region)%nat eqn:El.
  - apply Nat.leb_le in El. rewrite Nat.min_r by lia. reflexivity.
  - apply Nat.leb_gt in El. rewrite Nat.min_l by lia.
    change (memset R x00 (length region)) with (memset (xmlBufferContent R) x00 (length region)).
    rewrite shrink_wiped by lia. reflexivity.
Qed.


(** The log and the region after the first read of a Pending transform. *)
Lemma read_scratch : forall fuel w region w' out ret,
  isBuffered (node w) ->
  status (node w) = xmlSecTransformStatusNone ->
  prev (node w) <> None ->
  buffer (node w) = BufNull ->
  region <> [] ->
  xmlSecBufferedTransformRead fuel true w (Some region) = Returns (w', out, ret) ->
  exists new last out',
    calls w' = calls w ++ new /\
    filter isPrevRead new <> [] /\
    scratch region (filter isPrevRead new) last /\
    out = Some out' /\ length out' = length region /\
    (ret < 0 -> out' = last) /\
    (0 <= ret -> skipn (Z.to_nat ret) out' = skipn (Z.to_nat ret) last).
Proof.
  intros fuel w region w' out ret Hb Hs Hp Hnull Hne.
  unfold xmlSecBufferedTransformRead.
  rewrite (check_buffered _ Hb), Hs, Hnull. simpl.
  destruct region as [|x region]; [congruence|]. simpl length. simpl Nat.eqb.
  destruct (prev (node w)) as [a|]; [|congruence]. simpl isNull. cbv iota.
  destruct (fillBuffer fuel true w (x :: region)) as [[[w1 buf1] r1]| |] eqn:Ef;
    simpl; try discriminate.
  destruct (fill_frame _ _ _ _ _ _ _ Hnull Ef)
    as [(Hab & _)|(_ & reads & pevs & acc & Hc & Hrne & Hfil & Hsc & _ & _ & _ & _ & _ & Hacc & Hpe & Hlen)];
    [discriminate|].
  assert (Hfilter : filter isPrevRead (reads ++ pevs) = reads).
  { rewrite filter_app, Hfil.
    destruct Hpe as [[-> _]|(b & pr & Hpr & _)]; [now rewrite app_nil_r|].
    destruct (process_events _ _ _ _ _ Hpr) as [-> | ->]; simpl; now rewrite app_nil_r. }
  destruct (r1 <? 0).
  - intros Hr; inversion Hr; subst.
    exists (reads ++ pevs), buf1, buf1. rewrite Hfilter. repeat split; auto.
  - rewrite (deliver_live _ _ _ Hacc). simpl.
    intros Hr; inversion Hr; subst.
    eexists (reads ++ pevs), buf1, _. rewrite Hfilter.
    split; [destruct (length acc <=? _)%nat; simpl; exact Hc|].
    split; [exact Hrne|]. split; [exact Hsc|]. split; [reflexivity|].
    split; [rewrite memcpy_length by lia; exact Hlen|].
    split; [lia|]. intros _.
    rewrite Nat2Z.id. apply memcpy_rest. lia.
Qed.

End Read.

(** ** Read: partial delivery *)

Lemma chunks_shape : forall sizes P,
  Forall (fun k => (1 <= k)%nat) sizes ->
  (length P < length sizes)%nat ->
  exists n,
    (n <= length P)%nat /\
    (forall i, (i < n)%nat -> nth i (chunks P sizes) [] <> []) /\
    (forall i, (n <= i)%nat -> nth i (chunks P sizes) [] = []).
Proof.
  induction sizes as [|k sizes IH]; intros P Hk Hlen; [simpl in Hlen; lia|].
  inversion Hk as [|k' sizes' Hk1 Hks]; subst.
  destruct P as [|x P].
  - exists 0%nat. split; [simpl; lia|]. split; [intros i Hi; lia|].
    intros i _. pose proof (chunks_nil (k :: sizes)) as Hnil.
    rewrite Forall_forall in Hnil.
    destruct (Nat.lt_ge_cases i (length (chunks [] (k :: sizes)))) as [Hi|Hi].
    + apply Hnil. apply nth_In. exact Hi.
    + apply nth_overflow. exact Hi.
  - destruct (IH (skipn k (x :: P)) Hks) as (n & Hn & Hpos & Hzero).
    { rewrite length_skipn. cbn [length] in *. lia. }
    exists (S n). rewrite length_skipn in Hn. split; [cbn [length] in *; lia|]. split.
    + intros [|i] Hi; simpl chunks; cbn [nth].
      * destruct k; [lia|]. simpl. discriminate.
      * apply Hpos. lia.
    + intros [|i] Hi; [lia|]. simpl chunks. cbn [nth]. apply Hzero. lia.
Qed.

Lemma delivered_nonzero : forall replies,
  concat (map delivered (filter nonzero replies)) = concat (map delivered replies).
Proof.
  induction replies as [|r replies IH]; [reflexivity|]. simpl.
  unfold nonzero at 1. destruct (reply_ret r =? 0) eqn:Er; simpl.
  - apply Z.eqb_eq in Er. rewrite IH.
    destruct r as [[region|] ret|ret|ret]; simpl in *; subst; reflexivity.
  - now rewrite IH.
Qed.

Section PartialDelivery.

Context {U D : Type} `{BinTransform U} `{BinTransform D}.

Implicit Types w : @World U D.

(** Handing out from a live buffer [R] into a region of [k] bytes. *)
Lemma deliver_remaining : forall w region R,
  status (node w) = xmlSecTransformStatusNone ->
  buffer (node w) = BufLive R ->
  exists w' out,
    deliver w region =
      Returns (w', out, Z.of_nat (length (firstn (length region) R))) /\
    firstn (length (firstn (length region) R)) out = firstn (length region) R /\
    id (node w') = id (node w) /\ prev (node w') = prev (node w) /\
    remaining w' (skipn (length region) R).
Proof.
  intros w region R Hs Hb. rewrite (deliver_live _ _ _ Hb).
  rewrite length_firstn. eexists _, _. split; [reflexivity|].
  split.
  { rewrite memcpy_front by lia.
    destruct (Nat.le_gt_cases (length region) (length R)).
    - now rewrite Nat.min_l by lia.
    - rewrite Nat.min_r by lia. now rewrite !firstn_all2 by lia. }
  destruct (length R <=? length region)%nat eqn:El; simpl.
  - apply Nat.leb_le in El. repeat split. right. split; [reflexivity|].
    apply skipn_all2. exact El.
  - apply Nat.leb_gt in El. repeat split. left. simpl. repeat split; auto.
    intros Hnil. apply (f_equal (@length byte)) in Hnil.
    rewrite length_skipn in Hnil. simpl in Hnil. lia.
Qed.

(** A read once the buffer has been filled. *)
Lemma read_remaining : forall fuel alloc w region R,
  isBuffered (node w) ->
  prev (node w) <> None ->
  remaining w R ->
  region <> [] ->
  exists w' out,
    xmlSecBufferedTransformRead fuel alloc w (Some region) =
      Returns (w', Some out, Z.of_nat (length (firstn (length region) R))) /\
    firstn (length (firstn (length region) R)) out = firstn (length region) R /\
    isBuffered (node w') /\ prev (node w') <> None /\
    remaining w' (skipn (length region) R).
Proof.
  intros fuel alloc w region R Hb Hp [(Hs & Hbuf & HR)|(Hs & ->)] Hne.
  - unfold xmlSecBufferedTransformRead.
    rewrite (check_buffered _ Hb), Hs, Hbuf. simpl.
    destruct region as [|x region]; [congruence|]. simpl length at 1. simpl Nat.eqb.
    destruct (prev (node w)) as [a|] eqn:Ep; [|congruence]. simpl isNull. cbv iota.
    destruct (deliver_remaining w (x :: region) R Hs Hbuf)
      as (w' & out & Hd & Hout & Hid & Hpr & Hrem).
    rewrite Hd. simpl bind. exists w', out.
    split; [reflexivity|]. split; [exact Hout|].
    unfold isBuffered in *. rewrite Hid, Hpr, Ep. repeat split; auto.
  - rewrite read_not_pending by auto.
    rewrite firstn_nil, skipn_nil. simpl. exists w, region.
    repeat split; auto. right. auto.
Qed.

(** The first read: the buffer is filled from a previous transform that
    exposes [B], processed into [P], and handed out. *)
Lemma read_first : forall fuel w region B P r pevs,
  isBuffered (node w) ->
  status (node w) = xmlSecTransformStatusNone ->
  prev (node w) <> None ->
  buffer (node w) = BufNull ->
  exposes (upstream w) B ->
  (length B < fuel)%nat ->
  xmlSecBufferedProcess (node w) B = (P, r, pevs) ->
  0 <= r ->
  region <> [] ->
  exists w' out,
    xmlSecBufferedTransformRead fuel true w (Some region) =
      Returns (w', Some out, Z.of_nat (length (firstn (length region) P))) /\
    firstn (length (firstn (length region) P)) out = firstn (length region) P /\
    isBuffered (node w') /\ prev (node w') <> None /\
    remaining w' (skipn (length region) P).
Proof.
  intros fuel w region B P r pevs Hb Hs Hp Hnull Hex Hfuel Hproc Hr Hne.
  unfold xmlSecBufferedTransformRead.
  rewrite (check_buffered _ Hb), Hs, Hnull. simpl.
  destruct region as [|x region]; [congruence|]. simpl length at 1. simpl Nat.eqb.
  destruct (prev (node w)) as [a|] eqn:Ep; [|congruence]. simpl isNull. cbv iota.
  unfold fillBuffer. simpl xmlBufferCreate. cbn [isNullBuffer buffer node with_buffer with_node set_buffer].
  destruct (drain_exposed _ _ Hex fuel (with_buffer w (BufLive [])) (x :: region) [])
    as (w1 & buf1 & Hd & Hb1); try reflexivity; try discriminate; try assumption.
  destruct (drain_frame _ _ _ _ _ _ Hd)
    as (reads & Hc & _ & _ & _ & Hsize & Hid & Hst & Hpr & _ & _ & _ & _ & _).
  simpl in Hid, Hst, Hpr, Hb1.
  rewrite Hd. simpl bind. replace (0 <? 0) with false by reflexivity. cbv iota.
  rewrite Hb1, (process_by_id _ (node w) _ Hid), Hproc.
  destruct (r <? 0) eqn:Er; [apply Z.ltb_lt in Er; lia|].
  simpl bind. replace (0 <? 0) with false by reflexivity. cbv iota.
  set (w2 := logged (with_buffer w1 (BufLive P)) pevs).
  destruct (deliver_remaining w2 buf1 P) as (w' & out & Hdl & Hout & Hid' & Hpr' & Hrem).
  { simpl. rewrite Hst. exact Hs. }
  { reflexivity. }
  rewrite Hsize in Hdl, Hout, Hrem. rewrite Hdl. simpl bind. exists w', out.
  split; [reflexivity|]. split; [exact Hout|].
  unfold isBuffered in *. rewrite Hid', Hpr'. simpl. rewrite Hid, Hpr, Ep.
  repeat split; auto.
Qed.

Lemma run_reads_remaining : forall fuel regions w R,
  isBuffered (node w) ->
  prev (node w) <> None ->
  remaining w R ->
  Forall (fun region => region <> []) regions ->
  exists w' replies,
    run fuel w (readCalls regions) = Returns (w', replies) /\
    map delivered replies = chunks R (map (@length byte) regions) /\
    map reply_ret replies =
      map (fun c => Z.of_nat (length c)) (chunks R (map (@length byte) regions)) /\
    remaining w' (skipn (total (map (@length byte) regions)) R).
Proof.
  intros fuel regions. induction regions as [|region regions IH]; intros w R Hb Hp Hrem Hall.
  - exists w, []. repeat split; auto.
  - inversion Hall as [|? ? Hne Hall']; subst.
    destruct (read_remaining fuel true w region R Hb Hp Hrem Hne)
      as (w1 & out & Hread & Hout & Hb1 & Hp1 & Hrem1).
    destruct (IH w1 _ Hb1 Hp1 Hrem1 Hall') as (w' & replies & Hrun & Hdel & Hret & Hrem').
    simpl. rewrite Hread. simpl. rewrite Hrun. simpl.
    eexists _, _. split; [reflexivity|]. simpl.
    rewrite Nat2Z.id, Hout, Hdel, Hret.
    repeat split. unfold total in *. simpl.
    rewrite skipn_skipn in Hrem'. rewrite Nat.add_comm. exact Hrem'.
Qed.


End PartialDelivery.

(** ** How often the process method runs *)

Lemma reads_only : forall l,
  filter isPrevRead l = l ->
  count isProcess l = 0%nat /\ count isCallback l = 0%nat /\ Forall succeeded l.
Proof.
  induction l as [|e l IH]; intros Hf; [repeat split; constructor|].
  simpl in Hf. destruct (isPrevRead e) eqn:Ee.
  - inversion Hf as [Hf']. rewrite Hf'. destruct (IH Hf') as (H1 & H2 & H3).
    destruct e; try discriminate. unfold count in *. simpl.
    repeat split; auto. constructor; [exact I|exact H3].
  - pose proof (filter_length_le isPrevRead l) as Hle. rewrite Hf in Hle.
    simpl in Hle. lia.
Qed.

Section Counting.

Context {U D : Type} `{BinTransform U} `{BinTransform D}.

Implicit Types w : @World U D.

Ltac unchanged :=
  let Hr := fresh "Hr" in
  intros Hr; inversion Hr; subst; exists []; rewrite app_nil_r;
  repeat split; auto; try (cbn in *; lia); try discriminate.

Lemma armed_pending : forall w,
  status (node w) = xmlSecTransformStatusNone -> buffer (node w) = BufNull ->
  armed w = true.
Proof. intros w Hs Hb. unfold armed. now rewrite Hs, Hb. Qed.

Lemma read_log : forall fuel alloc w buf w' buf' ret,
  xmlSecBufferedTransformRead fuel alloc w buf = Returns (w', buf', ret) ->
  exists new,
    calls w' = calls w ++ new /\
    (count isProcess new <= 1)%nat /\
    (count isCallback new <= count isProcess new)%nat /\
    (status (node w) = xmlSecTransformStatusOk ->
       status (node w') = xmlSecTransformStatusOk /\ new = []) /\
    (armed w = false -> new = [] /\ armed w' = false) /\
    (count isProcess new = 1%nat -> armed w' = false).
Proof.
  intros fuel alloc w buf w' buf' ret. unfold xmlSecBufferedTransformRead.
  destruct (negb _); [unchanged|].
  destruct buf as [region|]; [|unchanged].
  destruct (length region =? 0)%nat; [unchanged|].
  destruct (status (node w)) eqn:Es; simpl; [|unchanged].
  destruct (isNull (prev (node w))); simpl; [unchanged|].
  destruct (buffer (node w)) as [|R|] eqn:Eb; simpl.
  - pose proof (armed_pending w Es Eb) as Harmed.
    destruct (fillBuffer fuel alloc w region) as [[[w1 buf1] r1]| |] eqn:Ef;
      simpl; try discriminate.
    destruct (fill_frame _ _ _ _ _ _ _ Eb Ef)
      as [(-> & -> & -> & ->)|(-> & reads & pevs & acc & Hc & _ & Hfil & _ & _ & Hst & _ & _ & _ & Hacc & Hpe & _)].
    + simpl. unchanged.
    + destruct (reads_only _ Hfil) as (Hr1 & Hr2 & _).
      assert (Hcount : (count isProcess (reads ++ pevs) <= 1)%nat /\
                       (count isCallback (reads ++ pevs) <= count isProcess (reads ++ pevs))%nat).
      { rewrite !count_app, Hr1, Hr2.
        destruct Hpe as [[-> _]|(b & pr & Hpr & _)]; [cbn; lia|].
        destruct (process_counts _ _ _ _ _ Hpr) as (Hp1 & _ & _ & _ & Hp5). lia. }
      destruct Hcount as [Hcnt1 Hcnt2].
      assert (Hend : forall wz : @World U D, calls wz = calls w1 -> armed wz = false ->
                exists new,
                  calls wz = calls w ++ new /\
                  (count isProcess new <= 1)%nat /\
                  (count isCallback new <= count isProcess new)%nat /\
                  (xmlSecTransformStatusNone = xmlSecTransformStatusOk ->
                     status (node wz) = xmlSecTransformStatusOk /\ new = []) /\
                  (armed w = false -> new = [] /\ armed wz = false) /\
                  (count isProcess new = 1%nat -> armed wz = false)).
      { intros wz Hcz Haz. exists (reads ++ pevs). rewrite Hcz, Hc.
        repeat split; auto; congruence. }
      destruct (r1 <? 0).
      * intros Hr; inversion Hr; subst. apply Hend; [reflexivity|].
        unfold armed. rewrite Hacc. apply andb_false_r.
      * rewrite (deliver_live _ _ _ Hacc). simpl.
        intros Hr; inversion Hr; subst. apply Hend.
        -- destruct (length acc <=? length buf1)%nat; reflexivity.
        -- destruct (length acc <=? length buf1)%nat; unfold armed; simpl;
             [reflexivity|apply andb_false_r].
  - rewrite (deliver_live _ _ _ Eb). simpl.
    intros Hr; inversion Hr; subst. exists []. rewrite app_nil_r.
    assert (Ha : armed (if (length R <=? length region)%nat
                        then with_node w (set_buffer (set_status (node w) xmlSecTransformStatusOk) BufNull)
                        else with_buffer w (BufLive (skipn (length region) R))) = false).
    { destruct (length R <=? length region)%nat; unfold armed; simpl;
        [reflexivity|apply andb_false_r]. }
    repeat split; auto; try (cbn in *; lia); try discriminate.
    destruct (length R <=? length region)%nat; reflexivity.
  - unfold deliver. rewrite Eb. discriminate.
Qed.

Lemma write_log : forall alloc w buf w' ret,
  xmlSecBufferedTransformWrite alloc w buf = Returns (w', ret) ->
  calls w' = calls w /\
  status (node w') = status (node w) /\
  (armed w = false -> armed w' = false).
Proof.
  intros alloc w buf w' ret Hw.
  destruct (write_cases _ _ _ _ _ Hw) as [[-> _]|(_ & _ & _ & b' & ->)]; auto.
  repeat split. intros _. unfold armed. simpl. apply andb_false_r.
Qed.

Lemma flush_log : forall w w' ret,
  xmlSecBufferedTransformFlush w = Returns (w', ret) ->
  exists new,
    calls w' = calls w ++ new /\
    (count isProcess new <= 1)%nat /\
    (count isCallback new <= count isProcess new)%nat /\
    (status (node w) = xmlSecTransformStatusOk ->
       status (node w') = xmlSecTransformStatusOk /\ new = []) /\
    (count isProcess new = 1%nat -> Forall succeeded new ->
       status (node w') = xmlSecTransformStatusOk).
Proof.
  intros w w' ret. unfold xmlSecBufferedTransformFlush.
  destruct (negb (xmlSecBinTransformCheckSubType _ _)) eqn:Ec; [unchanged|].
  destruct (status (node w)) eqn:Es; simpl; [|unchanged].
  destruct (isNull (next (node w))); simpl; [unchanged|].
  destruct (buffer (node w)) as [|b|] eqn:Eb; simpl; [unchanged| |discriminate].
  destruct (xmlSecBufferedProcess (node w) b) as [[b' pret] pevs] eqn:Ep.
  destruct (process_counts _ _ _ _ _ Ep) as (Hc1 & _ & _ & _ & Hc5).
  assert (Hbuffered : isBuffered (node w)).
  { apply negb_false_iff in Ec. unfold xmlSecBinTransformCheckSubType in Ec.
    unfold isBuffered. destruct (binSubType (id (node w))); [reflexivity|discriminate]. }
  destruct (pret <? 0) eqn:Epr.
  { intros Hf; inversion Hf; subst. exists pevs. simpl.
    split; [reflexivity|]. split; [lia|]. split; [lia|].
    split; [discriminate|]. intros _ Hsucc.
    apply Z.ltb_lt in Epr.
    rewrite (process_failure _ _ _ _ _ Hbuffered Ep Epr) in Hsucc.
    inversion Hsucc as [|? ? _ Hrest]; subst. inversion Hrest as [|? ? Hbad _]; subst.
    simpl in Hbad. lia. }
  destruct (xmlSecBinTransformWrite (downstream w) _) as [d' wret] eqn:Ew.
  destruct (wret <? 0) eqn:Ewr.
  { intros Hf; inversion Hf; subst. eexists (pevs ++ [EvNextWrite _ wret]). simpl.
    split; [now rewrite app_assoc|]. rewrite !count_app. cbn.
    split; [lia|]. split; [lia|]. split; [discriminate|]. intros _ Hsucc.
    apply Z.ltb_lt in Ewr. apply Forall_app in Hsucc. destruct Hsucc as [_ Hbad].
    inversion Hbad as [|? ? Hb' _]; subst. simpl in Hb'. lia. }
  destruct (xmlSecBinTransformFlush d') as [d'' fret] eqn:Ef.
  assert (Hnew : exists new,
            ((calls w ++ pevs) ++
               [EvNextWrite (firstn (xmlBufferLength b') (xmlBufferContent b')) wret]) ++
              [EvNextFlush fret] = calls w ++ new /\
            (count isProcess new <= 1)%nat /\
            (count isCallback new <= count isProcess new)%nat).
  { eexists (pevs ++ [EvNextWrite _ wret; EvNextFlush fret]).
    split; [now rewrite <- !app_assoc|]. rewrite !count_app. cbn. lia. }
  destruct Hnew as (new & Hnew & Hn1 & Hn2).
  destruct (fret <? 0); intros Hf; inversion Hf; subst; exists new; simpl;
    (split; [exact Hnew|]); repeat split; auto; discriminate.
Qed.

Lemma call_log : forall fuel w c w' r,
  call fuel w c = Returns (w', r) ->
  exists new,
    calls w' = calls w ++ new /\
    (count isProcess new <= 1)%nat /\
    (count isCallback new <= count isProcess new)%nat /\
    (status (node w) = xmlSecTransformStatusOk ->
       status (node w') = xmlSecTransformStatusOk /\ new = []) /\
    (isFlush c = false ->
       (armed w = false -> new = [] /\ armed w' = false) /\
       (count isProcess new = 1%nat -> armed w' = false)) /\
    (isRead c = false ->
       count isProcess new = 1%nat -> Forall succeeded new ->
       status (node w') = xmlSecTransformStatusOk).
Proof.
  intros fuel w [buf alloc|buf alloc|] w' r; simpl.
  - destruct (xmlSecBufferedTransformRead fuel alloc w buf) as [[[w1 buf1] r1]| |] eqn:Er;
      simpl; try discriminate.
    intros Hc; inversion Hc; subst.
    destruct (read_log _ _ _ _ _ _ _ Er) as (new & Hl & Hp & Hcb & Hok & Ha & Hone).
    exists new. split; [exact Hl|]. split; [exact Hp|]. split; [exact Hcb|].
    split; [exact Hok|]. split; [intros _; split; assumption|discriminate].
  - destruct (xmlSecBufferedTransformWrite alloc w buf) as [[w1 r1]| |] eqn:Ew;
      simpl; try discriminate.
    intros Hc; inversion Hc; subst.
    destruct (write_log _ _ _ _ _ Ew) as (Hl & Hst & Ha).
    exists []. rewrite app_nil_r. split; [exact Hl|].
    split; [cbn; lia|]. split; [cbn; lia|].
    split; [intros Hs; split; [congruence|reflexivity]|].
    split; [intros _; split; [auto|cbn; discriminate]|cbn; discriminate].
  - destruct (xmlSecBufferedTransformFlush w) as [[w1 r1]| |] eqn:Ef;
      simpl; try discriminate.
    intros Hc; inversion Hc; subst.
    destruct (flush_log _ _ _ Ef) as (new & Hl & Hp & Hcb & Hok & Hone).
    exists new. split; [exact Hl|]. split; [exact Hp|]. split; [exact Hcb|].
    split; [exact Hok|]. split; [discriminate|intros _; exact Hone].
Qed.

Lemma run_cons : forall fuel w c cs w' rs,
  run fuel w (c :: cs) = Returns (w', rs) ->
  exists w1 r rs',
    call fuel w c = Returns (w1, r) /\ run fuel w1 cs = Returns (w', rs') /\ rs = r :: rs'.
Proof.
  intros fuel w c cs w' rs. simpl.
  destruct (call fuel w c) as [[w1 r]| |]; simpl; try discriminate.
  destruct (run fuel w1 cs) as [[w2 rs']| |] eqn:Er; simpl; try discriminate.
  intros Hr; inversion Hr; subst. exists w1, r, rs'. auto.
Qed.

Lemma run_app : forall fuel cs1 cs2 w w1 rs1,
  run fuel w cs1 = Returns (w1, rs1) ->
  run fuel w (cs1 ++ cs2) =
    ('(w2, rs2) <- run fuel w1 cs2 ;; Returns (w2, rs1 ++ rs2)).
Proof.
  intros fuel cs1 cs2. induction cs1 as [|c cs1 IH]; intros w w1 rs1 Hr.
  - simpl in Hr. inversion Hr; subst. simpl.
    destruct (run fuel w1 cs2) as [[w2 rs2]| |]; reflexivity.
  - apply run_cons in Hr. destruct Hr as (wa & r & rs' & Hc & Hrun & ->).
    simpl. rewrite Hc. simpl. rewrite (IH _ _ _ Hrun).
    destruct (run fuel w1 cs2) as [[w2 rs2]| |]; reflexivity.
Qed.

Lemma run_app_inv : forall fuel cs1 cs2 w w' rs,
  run fuel w (cs1 ++ cs2) = Returns (w', rs) ->
  exists w1 rs1 rs2,
    run fuel w cs1 = Returns (w1, rs1) /\ run fuel w1 cs2 = Returns (w', rs2) /\
    rs = rs1 ++ rs2.
Proof.
  intros fuel cs1 cs2. induction cs1 as [|c cs1 IH]; intros w w' rs Hr.
  - exists w, [], rs. auto.
  - rewrite <- app_comm_cons in Hr. apply run_cons in Hr.
    destruct Hr as (wa & r & rs' & Hc & Hrun & ->).
    destruct (IH _ _ _ Hrun) as (w1 & rs1 & rs2 & H1 & H2 & ->).
    exists w1, (r :: rs1), rs2. simpl. rewrite Hc. simpl. rewrite H1. auto.
Qed.

(** The log of a run: what the calls add to it, how often the process method
    is in it when the run has no flush, and when it has no read. *)
Lemma run_log : forall fuel cs w w' rs,
  run fuel w cs = Returns (w', rs) ->
  exists new,
    calls w' = calls w ++ new /\
    (count isCallback new <= count isProcess new)%nat /\
    (status (node w) = xmlSecTransformStatusOk ->
       status (node w') = xmlSecTransformStatusOk /\ new = []) /\
    (forallb (fun c => negb (isFlush c)) cs = true ->
       (count isProcess new <= 1)%nat /\ (armed w = false -> count isProcess new = 0%nat)) /\
    (forallb (fun c => negb (isRead c)) cs = true ->
       Forall succeeded new -> (count isProcess new <= 1)%nat).
Proof.
  intros fuel cs. induction cs as [|c cs IH]; intros w w' rs Hrun.
  - simpl in Hrun. inversion Hrun; subst. exists []. rewrite app_nil_r.
    repeat split; auto; cbn; lia.
  - apply run_cons in Hrun. destruct Hrun as (w1 & r & rs' & Hc & Hrun & ->).
    destruct (call_log _ _ _ _ _ Hc) as (new1 & Hc1 & Hp1 & Hb1 & Hok1 & Hnf1 & Hnr1).
    destruct (IH _ _ _ Hrun) as (new2 & Hc2 & Hb2 & Hok2 & Hnf2 & Hnr2).
    exists (new1 ++ new2). rewrite Hc2, Hc1, <- app_assoc, !count_app.
    split; [reflexivity|]. split; [lia|]. split; [|split].
    + intros Hs. destruct (Hok1 Hs) as [Hs1 ->]. destruct (Hok2 Hs1) as [Hs2 ->]. auto.
    + simpl. intros Hall. apply andb_true_iff in Hall. destruct Hall as [Hf Hall].
      apply negb_true_iff in Hf.
      destruct (Hnf1 Hf) as [Ha1 Ha2]. destruct (Hnf2 Hall) as [Hle2 Hz2]. split.
      * destruct (Nat.eq_dec (count isProcess new1) 1) as [E1|E1].
        -- rewrite (Hz2 (Ha2 E1)). lia.
        -- lia.
      * intros Ha. destruct (Ha1 Ha) as [-> Ha']. rewrite (Hz2 Ha'). reflexivity.
    + simpl. intros Hall Hsucc. apply andb_true_iff in Hall. destruct Hall as [Hr Hall].
      apply negb_true_iff in Hr. apply Forall_app in Hsucc. destruct Hsucc as [Hs1 Hs2].
      destruct (Nat.eq_dec (count isProcess new1) 1) as [E1|E1].
      * destruct (Hok2 (Hnr1 Hr E1 Hs1)) as [_ ->]. cbn. lia.
      * specialize (Hnr2 Hall Hs2). lia.
Qed.

(** The flush of a Pending transform with a next transform and a buffer
    returns and has called the process method once. *)
Lemma flush_invokes_once : forall w b,
  isBuffered (node w) ->
  status (node w) = xmlSecTransformStatusNone ->
  next (node w) <> None ->
  buffer (node w) = BufLive b ->
  exists w' ret new,
    xmlSecBufferedTransformFlush w = Returns (w', ret) /\
    calls w' = calls w ++ new /\
    count isProcess new = 1%nat /\
    (Forall succeeded new -> status (node w') = xmlSecTransformStatusOk).
Proof.
  intros w b Hb Hs Hn Hbuf.
  destruct (xmlSecBufferedProcess (node w) b) as [[b' pret] pevs] eqn:Ep.
  destruct (process_counts _ _ _ _ _ Ep) as (Hc1 & _).
  destruct (xmlSecBinTransformWrite (downstream w) b') as [d' wret] eqn:Ew.
  destruct (xmlSecBinTransformFlush d') as [d'' fret] eqn:Ef.
  destruct (xmlSecBufferedTransformFlush w) as [[w' ret]| |] eqn:Efl;
    rewrite (flush_pending _ _ _ _ _ _ _ _ _ Hb Hs Hn Hbuf Ep Ew Ef) in Efl;
    cbv zeta in Efl;
    try (destruct (pret <? 0); [|destruct (wret <? 0)]; discriminate).
  destruct (flush_log w w' ret) as (new & Hc & Hle & _ & _ & Hok).
  { rewrite (flush_pending _ _ _ _ _ _ _ _ _ Hb Hs Hn Hbuf Ep Ew Ef). exact Efl. }
  exists w', ret, new. split; [reflexivity|]. split; [exact Hc|].
  assert (Hone : count isProcess new = 1%nat).
  { assert (Hin : exists rest, new = pevs ++ rest).
    { destruct (pret <? 0); [|destruct (wret <? 0)];
        inversion Efl; subst; simpl in Hc.
      - exists []. rewrite app_nil_r. now apply app_inv_head in Hc.
      - rewrite <- app_assoc in Hc. apply app_inv_head in Hc. eauto.
      - rewrite <- !app_assoc in Hc. apply app_inv_head in Hc. eauto. }
    destruct Hin as [rest ->]. rewrite count_app in *. lia. }
  split; [exact Hone|]. intros Hsucc. apply Hok; assumption.
Qed.

(** The same flush, with what it adds to the log: the process call on the
    buffer first, then calls on the next transform only. *)
Lemma flush_invokes : forall w b,
  isBuffered (node w) ->
  status (node w) = xmlSecTransformStatusNone ->
  next (node w) <> None ->
  buffer (node w) = BufLive b ->
  exists w' ret rest,
    xmlSecBufferedTransformFlush w = Returns (w', ret) /\
    calls w' = calls w ++ processLog (node w) b ++ rest /\
    count isProcess rest = 0%nat /\ count isCallback rest = 0%nat.
Proof.
  intros w b Hb Hs Hn Hbuf.
  pose proof (process_dispatch (node w) b Hb) as Ep.
  destruct (xmlSecBinTransformWrite (downstream w) (fst (processed (node w) b)))
    as [d' wret] eqn:Ew.
  destruct (xmlSecBinTransformFlush d') as [d'' fret] eqn:Ef.
  rewrite (flush_pending _ _ _ _ _ _ _ _ _ Hb Hs Hn Hbuf Ep Ew Ef). cbv zeta.
  destruct (snd (processed (node w) b) <? 0).
  - eexists _, _, []. split; [reflexivity|]. fields. rewrite app_nil_r. auto.
  - destruct (wret <? 0).
    + eexists _, _, [EvNextWrite (fst (processed (node w) b)) wret].
      split; [reflexivity|]. fields. rewrite <- app_assoc. auto.
    + eexists _, _, [EvNextWrite (fst (processed (node w) b)) wret; EvNextFlush fret].
      split; [reflexivity|]. fields. rewrite <- !app_assoc. auto.
Qed.

Ltac nothing_logged :=
  let Hr := fresh "Hr" in
  intros Hr; inversion Hr; subst; exists []; rewrite app_nil_r;
  repeat split; destruct (bufferedProcess _); reflexivity.

(** On a buffered transform every call of a run that calls
    [xmlSecBufferedProcess] calls the method of the id, when there is one;
    it is the id the transform had at the start. *)
Lemma read_callbacks : forall fuel alloc w buf w' buf' ret,
  xmlSecBufferedTransformRead fuel alloc w buf = Returns (w', buf', ret) ->
  isBuffered (node w) ->
  exists new,
    calls w' = calls w ++ new /\ id (node w') = id (node w) /\
    count isCallback new =
      match bufferedProcess (id (node w)) with
      | Some _ => count isProcess new
      | None => 0%nat
      end.
Proof.
  intros fuel alloc w buf w' buf' ret Hread Hb. revert Hread.
  unfold xmlSecBufferedTransformRead.
  destruct (negb _); [nothing_logged|].
  destruct buf as [region|]; [|nothing_logged].
  destruct (length region =? 0)%nat; [nothing_logged|].
  destruct (status (node w)) eqn:Es; simpl; [|nothing_logged].
  destruct (isNull (prev (node w))); simpl; [nothing_logged|].
  destruct (buffer (node w)) as [|R|] eqn:Eb; simpl.
  - destruct (fillBuffer fuel alloc w region) as [[[w1 buf1] r1]| |] eqn:Ef;
      simpl; try discriminate.
    destruct (fill_frame _ _ _ _ _ _ _ Eb Ef)
      as [(-> & -> & -> & ->)|(-> & reads & pevs & acc & Hc & _ & Hfil & _ & Hid & _ & _ & _ & _ & Hacc & Hpe & _)].
    + simpl. nothing_logged.
    + destruct (reads_only _ Hfil) as (Hr1 & Hr2 & _).
      assert (Hcount : count isCallback (reads ++ pevs) =
                       match bufferedProcess (id (node w)) with
                       | Some _ => count isProcess (reads ++ pevs)
                       | None => 0%nat
                       end).
      { rewrite !count_app, Hr1, Hr2.
        destruct Hpe as [[-> _]|(b & pr & Hpr & _)].
        - destruct (bufferedProcess _); reflexivity.
        - rewrite (process_dispatch _ _ Hb) in Hpr.
          assert (Hlog : pevs = processLog (node w) b) by congruence.
          destruct (processLog_counts (node w) b) as (Hp1 & _ & _ & _ & Hp5).
          rewrite Hlog, Hp1, Hp5. destruct (bufferedProcess _); reflexivity. }
      destruct (r1 <? 0).
      * intros Hr; inversion Hr; subst. exists (reads ++ pevs). auto.
      * rewrite (deliver_live _ _ _ Hacc). simpl.
        intros Hr; inversion Hr; subst. exists (reads ++ pevs).
        split; [destruct (length acc <=? length buf1)%nat; exact Hc|].
        split; [destruct (length acc <=? length buf1)%nat; exact Hid|exact Hcount].
  - rewrite (deliver_live _ _ _ Eb). simpl.
    intros Hr; inversion Hr; subst. exists []. rewrite app_nil_r.
    split; [destruct (length R <=? length region)%nat; reflexivity|].
    split; [destruct (length R <=? length region)%nat; reflexivity|].
    destruct (bufferedProcess _); reflexivity.
  - unfold deliver. rewrite Eb. discriminate.
Qed.

Lemma flush_callbacks : forall w w' ret,
  xmlSecBufferedTransformFlush w = Returns (w', ret) ->
  isBuffered (node w) ->
  exists new,
    calls w' = calls w ++ new /\ id (node w') = id (node w) /\
    count isCallback new =
      match bufferedProcess (id (node w)) with
      | Some _ => count isProcess new
      | None => 0%nat
      end.
Proof.
  intros w w' ret Hflush Hb. revert Hflush.
  unfold xmlSecBufferedTransformFlush.
  destruct (negb _); [nothing_logged|].
  destruct (status (node w)) eqn:Es; simpl; [|nothing_logged].
  destruct (isNull (next (node w))); simpl; [nothing_logged|].
  destruct (buffer (node w)) as [|b|] eqn:Eb; simpl; [nothing_logged| |discriminate].
  rewrite (process_dispatch _ _ Hb).
  destruct (processLog_counts (node w) b) as (Hp1 & _ & _ & _ & Hp5).
  assert (Hcount : forall rest,
            count isProcess rest = 0%nat -> count isCallback rest = 0%nat ->
            count isCallback (processLog (node w) b ++ rest) =
              match bufferedProcess (id (node w)) with
              | Some _ => count isProcess (processLog (node w) b ++ rest)
              | None => 0%nat
              end).
  { intros rest H1 H2. rewrite !count_app, H1, H2, Hp1, Hp5.
    destruct (bufferedProcess _); reflexivity. }
  destruct (snd (processed (node w) b) <? 0).
  { intros Hf; inversion Hf; subst. exists (processLog (node w) b ++ []). fields.
    rewrite app_nil_r. split; [reflexivity|]. split; [reflexivity|].
    rewrite <- (app_nil_r (processLog (node w) b)). now apply Hcount. }
  destruct (xmlSecBinTransformWrite _ _) as [d' wret].
  destruct (wret <? 0).
  { intros Hf; inversion Hf; subst. eexists (processLog (node w) b ++ [EvNextWrite _ wret]).
    fields. split; [now rewrite app_assoc|]. split; [reflexivity|]. now apply Hcount. }
  destruct (xmlSecBinTransformFlush d') as [d'' fret].
  assert (Hend : forall wz : @World U D,
            calls wz = ((calls w ++ processLog (node w) b) ++
                        [EvNextWrite (firstn (xmlBufferLength (fst (processed (node w) b)))
                                        (xmlBufferContent (fst (processed (node w) b)))) wret]) ++
                       [EvNextFlush fret] ->
            id (node wz) = id (node w) ->
            exists new,
              calls wz = calls w ++ new /\ id (node wz) = id (node w) /\
              count isCallback new =
                match bufferedProcess (id (node w)) with
                | Some _ => count isProcess new
                | None => 0%nat
                end).
  { intros wz Hcz Hiz.
    eexists (processLog (node w) b ++ [EvNextWrite _ wret; EvNextFlush fret]).
    split; [rewrite Hcz; now rewrite <- !app_assoc|]. split; [exact Hiz|]. now apply Hcount. }
  destruct (fret <? 0); intros Hf; inversion Hf; subst; apply Hend; reflexivity.
Qed.

Lemma call_callbacks : forall fuel w c w' r,
  call fuel w c = Returns (w', r) ->
  isBuffered (node w) ->
  exists new,
    calls w' = calls w ++ new /\ id (node w') = id (node w) /\
    count isCallback new =
      match bufferedProcess (id (node w)) with
      | Some _ => count isProcess new
      | None => 0%nat
      end.
Proof.
  intros fuel w [buf alloc|buf alloc|] w' r; simpl.
  - destruct (xmlSecBufferedTransformRead fuel alloc w buf) as [[[w1 buf1] r1]| |] eqn:Er;
      simpl; try discriminate.
    intros Hc Hb; inversion Hc; subst. exact (read_callbacks _ _ _ _ _ _ _ Er Hb).
  - destruct (xmlSecBufferedTransformWrite alloc w buf) as [[w1 r1]| |] eqn:Ew;
      simpl; try discriminate.
    intros Hc Hb; inversion Hc; subst. exists []. rewrite app_nil_r.
    destruct (write_cases _ _ _ _ _ Ew) as [[-> _]|(_ & _ & _ & b' & ->)];
      repeat split; destruct (bufferedProcess _); reflexivity.
  - destruct (xmlSecBufferedTransformFlush w) as [[w1 r1]| |] eqn:Ef;
      simpl; try discriminate.
    intros Hc Hb; inversion Hc; subst. exact (flush_callbacks _ _ _ Ef Hb).
Qed.

Lemma run_callbacks : forall fuel cs w w' rs,
  run fuel w cs = Returns (w', rs) ->
  isBuffered (node w) ->
  exists new,
    calls w' = calls w ++ new /\ id (node w') = id (node w) /\
    count isCallback new =
      match bufferedProcess (id (node w)) with
      | Some _ => count isProcess new
      | None => 0%nat
      end.
Proof.
  intros fuel cs. induction cs as [|c cs IH]; intros w w' rs Hrun Hb.
  - simpl in Hrun. inversion Hrun; subst. exists []. rewrite app_nil_r.
    repeat split. destruct (bufferedProcess _); reflexivity.
  - apply run_cons in Hrun. destruct Hrun as (w1 & r & rs' & Hc & Hrun & ->).
    destruct (call_callbacks _ _ _ _ _ Hc Hb) as (new1 & Hc1 & Hid1 & Hn1).
    assert (Hb1 : isBuffered (node w1)) by (unfold isBuffered in *; now rewrite Hid1).
    destruct (IH _ _ _ Hrun Hb1) as (new2 & Hc2 & Hid2 & Hn2).
    exists (new1 ++ new2). rewrite Hc2, Hc1, <- app_assoc, !count_app.
    split; [reflexivity|]. split; [congruence|].
    rewrite Hid1 in Hn2. rewrite Hn1, Hn2.
    destruct (bufferedProcess _); reflexivity.
Qed.

(** C4, as the code has it: the calls of a run add to the log at most one
    call of [xmlSecBufferedProcess], and so at most one call of the process
    callback, when the run has no flush, and when it has no read and no call
    of the callback and no write to the next transform failed during it; on
    a buffered transform whose id has a callback, every call of
    [xmlSecBufferedProcess] is one call of the callback.  Writes of
    non-empty data followed by a flush (on a Pending transform with a next
    transform) call the callback; it is the only call of the callback in
    the run when the run ends with that flush, and when no call of the
    callback and no write to the next transform failed.  When each write is
    of at most [INT_MAX] bytes the callback is called on what the buffer
    held followed by the written bytes. *)
Theorem process_at_most_once : forall fuel w cs w' rs,
  run fuel w cs = Returns (w', rs) ->
  exists new,
    calls w' = calls w ++ new /\
    (count isCallback new <= count isProcess new)%nat /\
    (isBuffered (node w) -> bufferedProcess (id (node w)) <> None ->
       count isCallback new = count isProcess new) /\
    (forallb (fun c => negb (isFlush c)) cs = true ->
       (count isProcess new <= 1)%nat /\ (count isCallback new <= 1)%nat) /\
    (forallb (fun c => negb (isRead c)) cs = true ->
       Forall succeeded new ->
       (count isProcess new <= 1)%nat /\ (count isCallback new <= 1)%nat) /\
    (forall datas more method,
       cs = writeCalls datas ++ CallFlush :: more ->
       isBuffered (node w) ->
       bufferedProcess (id (node w)) = Some method ->
       status (node w) = xmlSecTransformStatusNone ->
       next (node w) <> None ->
       buffer (node w) <> BufFreed ->
       datas <> [] ->
       Forall (fun data => data <> []) datas ->
       (1 <= count isCallback new)%nat /\
       (more = [] \/ Forall succeeded new -> count isCallback new = 1%nat) /\
       (Forall fits datas ->
          In (EvCallback (accumulated (buffer (node w)) ++ concat datas)
                (snd (method (accumulated (buffer (node w)) ++ concat datas)))) new)).
Proof.
  intros fuel w cs w' rs Hrun.
  destruct (run_log _ _ _ _ _ Hrun) as (new & Hc & Hcb & _ & Hnf & Hnr).
  assert (Hpair : isBuffered (node w) -> bufferedProcess (id (node w)) <> None ->
                  count isCallback new = count isProcess new).
  { intros Hb Hm.
    destruct (run_callbacks _ _ _ _ _ Hrun Hb) as (new' & Hc' & _ & Hn').
    assert (new' = new) by (rewrite Hc in Hc'; now apply app_inv_head in Hc').
    subst new'. destruct (bufferedProcess (id (node w))); [exact Hn'|congruence]. }
  exists new. split; [exact Hc|]. split; [exact Hcb|]. split; [exact Hpair|].
  split; [intros Hall; destruct (Hnf Hall); lia|].
  split; [intros Hall Hsucc; specialize (Hnr Hall Hsucc); lia|].
  intros datas more method -> Hb Hm Hs Hn Hfree Hne Hall.
  assert (Hsome : bufferedProcess (id (node w)) <> None) by congruence.
  rewrite (Hpair Hb Hsome).
  destruct (run_app_inv _ _ _ _ _ _ Hrun) as (w1 & rs1 & rs2 & Hw & Hrest & ->).
  destruct (run_writes_live _ _ _ _ _ Hb Hs Hn Hfree Hne Hall Hw) as [input ->].
  set (w1 := with_buffer w (BufLive input)) in *.
  destruct (flush_invokes w1 input Hb Hs Hn eq_refl)
    as (w2 & ret & rest & Hfl & Hcf & Hrest1 & Hrest2).
  destruct (flush_invokes_once w1 input Hb Hs Hn eq_refl)
    as (w2' & ret' & newf & Hfl' & Hcf' & Hone & Hok).
  rewrite Hfl in Hfl'. inversion Hfl'; subst w2' ret'. clear Hfl'.
  assert (Hnewf : newf = processLog (node w1) input ++ rest)
    by (rewrite Hcf in Hcf'; now apply app_inv_head in Hcf').
  apply run_cons in Hrest. destruct Hrest as (wa & r & rs' & Hcall & Hmore & ->).
  simpl in Hcall. rewrite Hfl in Hcall. simpl in Hcall.
  inversion Hcall; subst wa r. clear Hcall.
  destruct (run_log _ _ _ _ _ Hmore) as (newm & Hcm & _ & Hokm & _ & _).
  assert (Hnew : new = newf ++ newm).
  { rewrite Hcm, Hcf' in Hc. simpl in Hc. rewrite <- app_assoc in Hc.
    apply app_inv_head in Hc. auto. }
  subst new. rewrite count_app, Hone. split; [lia|]. split.
  - intros [->|Hsucc].
    + simpl in Hmore. inversion Hmore; subst.
      rewrite <- (app_nil_r (calls w')) in Hcm at 1. apply app_inv_head in Hcm.
      subst newm. reflexivity.
    + apply Forall_app in Hsucc. destruct Hsucc as [Hs1 _].
      destruct (Hokm (Hok Hs1)) as [_ ->]. reflexivity.
  - intros Hfit.
    destruct (run_writes fuel datas w Hb Hs Hn Hfree Hne Hall Hfit) as (rs1' & Hw' & _).
    rewrite Hw in Hw'.
    assert (Hinput : input = accumulated (buffer (node w)) ++ concat datas)
      by (inversion Hw'; reflexivity).
    rewrite <- Hinput.
    apply in_or_app. left. rewrite Hnewf. apply in_or_app. left.
    unfold processLog. change (id (node w1)) with (id (node w)). rewrite Hm.
    right. left. reflexivity.
Qed.

End Counting.

(** ** The scripted previous transform *)

(** A script of non-empty gifts exposes the bytes it gives. *)
Lemma script_exposes : forall n s,
  (length (script_data s) <= n)%nat ->
  script_sound s = true ->
  exposes s (script_data s).
Proof.
  induction n as [|n IH]; intros s Hlen Hs.
  - destruct s as [|[[|x d]|] s]; simpl in *; try discriminate; try lia.
    apply exposes_end. intros buf. reflexivity.
  - destruct s as [|[[|x d]|] s]; simpl in Hs; try discriminate.
    + apply exposes_end. intros buf. reflexivity.
    + set (B := script_data (Give (x :: d) :: s)).
      assert (Hstep : forall buf, buf <> [] ->
                exists k s',
                  xmlSecBinTransformRead (T:=Script) (Give (x :: d) :: s) buf =
                    (s', memcpy buf (x :: d) k, Z.of_nat k) /\
                  (1 <= k <= length buf)%nat /\ (k <= length (x :: d))%nat /\
                  script_sound s' = true /\ script_data s' = skipn k B).
      { intros buf Hb.
        exists (Nat.min (length buf) (length (x :: d))).
        assert (Hk : (1 <= Nat.min (length buf) (length (x :: d)))%nat).
        { destruct buf; [congruence|]. simpl. lia. }
        unfold xmlSecBinTransformRead. cbn [readBin Script_transform script_read].
        set (k := Nat.min (length buf) (length (x :: d))) in *.
        rewrite written_same by (apply memcpy_length; lia).
        eexists. split; [reflexivity|].
        split; [lia|]. split; [lia|].
        unfold B. cbn [script_data]. rewrite skipn_app.
        assert (Hkd : (k <= length (x :: d))%nat) by lia.
        destruct (skipn k (x :: d)) as [|y rest] eqn:Esk.
        - split; [exact Hs|].
          assert (k = length (x :: d)).
          { apply (f_equal (@length byte)) in Esk. rewrite length_skipn in Esk.
            change (length (@nil byte)) with 0%nat in Esk. lia. }
          subst k. replace (Nat.min (length buf) (length (x :: d)) - length (x :: d))%nat
            with 0%nat by lia. reflexivity.
        - split; [exact Hs|]. cbn [script_data].
          replace (k - length (x :: d))%nat with 0%nat by lia.
          rewrite skipn_O. reflexivity. }
      apply exposes_more.
      * unfold B. simpl. discriminate.
      * intros buf Hb. destruct (Hstep buf Hb) as (k & s' & Hr & Hk1 & Hk2 & _ & _).
        rewrite Hr. unfold chunk_of. rewrite Nat2Z.id.
        split; [lia|]. split.
        -- unfold B. cbn [script_data]. rewrite length_app. lia.
        -- rewrite memcpy_front by lia. unfold B. cbn [script_data].
           rewrite firstn_app. replace (k - length (x :: d))%nat with 0%nat by lia.
           now rewrite firstn_O, app_nil_r.
      * intros buf Hb. destruct (Hstep buf Hb) as (k & s' & Hr & Hk1 & Hk2 & Hs' & Hd').
        rewrite Hr. cbn [fst snd]. rewrite Nat2Z.id, <- Hd'.
        apply IH; [|exact Hs'].
        rewrite Hd', length_skipn. unfold B in *. lia.
Qed.

(** * The scenarios *)

(** The scenario of the spec for a push: "AB" and "CD" are written and the
    transform is flushed twice.  The next transform is written once, the
    eight bytes of "ABCD" and the marker, and flushed once; the second flush
    does nothing. *)
Example marker_scenario :
  exists w' rs,
    run 1 (pushWorld (Some markerMethod) (sink 0 0))
      (writeCalls [bytesAB; bytesCD] ++ [CallFlush; CallFlush]) = Returns (w', rs) /\
    map reply_ret rs = [0; 0; 0; 0] /\
    received (downstream w') = [bytesAB ++ bytesCD ++ marker] /\
    length (bytesAB ++ bytesCD ++ marker) = 8%nat /\
    flushed (downstream w') = 1%nat /\
    status (node w') = xmlSecTransformStatusOk.
Proof. eexists _, _. split; [reflexivity|]. repeat split. Qed.

(** The scenario of the spec for a pull: the previous transform gives "XY",
    then "Z", then 0; reads of two bytes return 2 with "XY", 1 with "Z",
    then 0. *)
Example pull_scenario :
  exists w' rs,
    run 4 sourceWorld (readCalls [blank 2; blank 2; blank 2]) = Returns (w', rs) /\
    map reply_ret rs = [2; 1; 0] /\
    map delivered rs = [bytesXY; bytesZ; []].
Proof. eexists _, _. split; [reflexivity|]. repeat split. Qed.



(** A transform that is done does nothing more. *)
Lemma finalized_is_terminal_witness :
  xmlSecBufferedTransformRead 0 true doneWorld (Some (blank 2)) =
    Returns (doneWorld, Some (blank 2), 0) /\
  xmlSecBufferedTransformWrite true doneWorld (Some bytesAB) = Returns (doneWorld, 0) /\
  xmlSecBufferedTransformFlush doneWorld = Returns (doneWorld, 0).
Proof.
  destruct (finalized_is_terminal doneWorld) as (Hr & Hw & Hf & _);
    [reflexivity|reflexivity|].
  split; [apply Hr|]. split; [apply Hw|exact Hf].
Defined.

(** A transform with no neighbour does nothing. *)
Lemma no_neighbour_is_inert_witness :
  xmlSecBufferedTransformRead 0 true aloneWorld (Some (blank 2)) =
    Returns (aloneWorld, Some (blank 2), 0) /\
  xmlSecBufferedTransformWrite true aloneWorld (Some bytesAB) = Returns (aloneWorld, 0) /\
  xmlSecBufferedTransformFlush aloneWorld = Returns (aloneWorld, 0).
Proof.
  destruct (no_neighbour_is_inert aloneWorld) as (Hr & Hw); [reflexivity|].
  destruct (Hw eq_refl) as [Hw1 Hw2].
  split; [apply Hr; reflexivity|]. split; [apply Hw1|exact Hw2].
Defined.

(** The two writes of the push scenario. *)
Lemma writes_concatenate_witness :
  exists rs,
    run 1 (pushWorld (Some markerMethod) (sink 0 0)) (writeCalls [bytesAB; bytesCD]) =
      Returns (heldWorld, rs) /\
    Forall (fun r => r = ReplyWrite 0) rs.
Proof.
  apply (writes_concatenate 1 (pushWorld (Some markerMethod) (sink 0 0)) [bytesAB; bytesCD]).
  - reflexivity.
  - reflexivity.
  - discriminate.
  - discriminate.
  - discriminate.
  - repeat constructor; discriminate.
  - repeat constructor; unfold fits, INT_MAX; simpl; lia.
Defined.

(** A write of 2^31 bytes: the size becomes the [int] -2^31, which
    [xmlBufferAdd] refuses; the write returns 0 all the same, and the buffer
    it created holds none of the bytes. *)
Lemma oversized_write_is_dropped :
  hugeData <> [] /\
  status (node (pushWorld None (sink 0 0))) = xmlSecTransformStatusNone /\
  next (node (pushWorld None (sink 0 0))) <> None /\
  xmlSecBufferedTransformWrite true (pushWorld None (sink 0 0)) (Some hugeData) =
    Returns (with_buffer (pushWorld None (sink 0 0)) (BufLive []), 0) /\
  accumulated (buffer (node (with_buffer (pushWorld None (sink 0 0)) (BufLive [])))) <>
    hugeData.
Proof.
  assert (Hlen : length hugeData = (2 ^ 31)%nat) by apply repeat_length.
  assert (Hpos : (2 ^ 31)%nat <> 0%nat) by (apply Nat.pow_nonzero; discriminate).
  assert (Hne : hugeData <> []).
  { intros Hnil. apply Hpos. rewrite <- Hlen, Hnil. reflexivity. }
  split; [exact Hne|]. split; [reflexivity|]. split; [discriminate|].
  split.
  - apply (write_wraps (pushWorld None (sink 0 0)) hugeData).
    + reflexivity.
    + reflexivity.
    + discriminate.
    + discriminate.
    + exact Hne.
    + left. rewrite Hlen. unfold int_of_size. rewrite Nat2Z.inj_pow.
      change (Z.of_nat 2) with 2. change (Z.of_nat 31) with 31. reflexivity.
  - intros Heq. apply Hne. rewrite <- Heq. reflexivity.
Qed.

(** A flush that fails at the write to the next transform and is called
    again runs the process method again, on what the first run left: the
    marker is there twice.  So does a flush after a read that handed out a
    part of the processed buffer. *)
Lemma process_runs_twice :
  (exists w' rs,
     run 1 (pushWorld (Some markerMethod) (sink (-1) 0))
       (writeCalls [bytesAB] ++ [CallFlush; CallFlush]) = Returns (w', rs) /\
     map reply_ret rs = [0; -1; -1] /\
     count isCallback (calls w') = 2%nat /\
     buffer (node w') = BufLive (bytesAB ++ marker ++ marker)) /\
  (exists w' rs,
     run 4 (chainWorld (Some markerMethod) [Give bytesXY; Give bytesZ] (sink 0 0))
       [CallRead (Some (blank 2)) true; CallFlush] = Returns (w', rs) /\
     map reply_ret rs = [2; 0] /\
     count isCallback (calls w') = 2%nat).
Proof.
  split; eexists _, _; (split; [reflexivity|]); repeat split.
Qed.

(** In the push scenario the process method runs once, also with the second
    flush. *)
Lemma process_at_most_once_witness :
  count isCallback
    (calls (worldAfter (pushWorld (Some markerMethod) (sink 0 0))
              (run 1 (pushWorld (Some markerMethod) (sink 0 0))
                 (writeCalls [bytesAB; bytesCD] ++ [CallFlush; CallFlush])))) = 1%nat.
Proof.
  assert (Hrun : run 1 (pushWorld (Some markerMethod) (sink 0 0))
                   (writeCalls [bytesAB; bytesCD] ++ [CallFlush; CallFlush]) =
                 Returns
                   (worldAfter (pushWorld (Some markerMethod) (sink 0 0))
                      (run 1 (pushWorld (Some markerMethod) (sink 0 0))
                         (writeCalls [bytesAB; bytesCD] ++ [CallFlush; CallFlush])),
                    [ReplyWrite 0; ReplyWrite 0; ReplyFlush 0; ReplyFlush 0]))
    by reflexivity.
  destruct (process_at_most_once 1 _ _ _ _ Hrun) as (new & Hc & _ & _ & _ & _ & Hwf).
  rewrite Hc. change (calls (pushWorld (Some markerMethod) (sink 0 0))) with (@nil Event).
  rewrite app_nil_l.
  destruct (Hwf [bytesAB; bytesCD] [CallFlush] markerMethod) as (_ & Hone & _).
  - reflexivity.
  - reflexivity.
  - reflexivity.
  - reflexivity.
  - discriminate.
  - discriminate.
  - discriminate.
  - repeat constructor; discriminate.
  - apply Hone. right.
    change (calls (pushWorld (Some markerMethod) (sink 0 0))) with (@nil Event) in Hc.
    rewrite app_nil_l in Hc. rewrite <- Hc. repeat constructor; simpl; lia.
Defined.



(** A flush that fails at the write to the next transform leaves the buffer
    as the process method rewrote it; a flush that fails at the flush of the
    next transform has set the status and released the buffer. *)
Lemma failed_flush_changes_state :
  (exists w',
     xmlSecBufferedTransformFlush refusedWorld = Returns (w', -1) /\
     buffer (node refusedWorld) = BufLive bytesAB /\
     buffer (node w') = BufLive (bytesAB ++ marker)) /\
  (exists w',
     xmlSecBufferedTransformFlush unflushedWorld = Returns (w', -1) /\
     status (node unflushedWorld) = xmlSecTransformStatusNone /\
     status (node w') = xmlSecTransformStatusOk /\
     buffer (node w') = BufNull).
Proof.
  split; eexists; (split; [reflexivity|]); repeat split.
Qed.

(** The flush that the next transform refuses keeps the status, does not
    flush the next transform, and leaves in the buffer what the process
    method made of it. *)
Lemma failed_flush_state_witness :
  exists w' new,
    xmlSecBufferedTransformFlush refusedWorld = Returns (w', -1) /\
    calls w' = calls refusedWorld ++ new /\
    count isNextFlush new = 0%nat /\
    status (node w') = xmlSecTransformStatusNone /\
    buffer (node w') = BufLive (bytesAB ++ marker).
Proof.
  assert (Hflush : xmlSecBufferedTransformFlush refusedWorld =
                   Returns
                     (worldAfter refusedWorld (xmlSecBufferedTransformFlush refusedWorld),
                      -1))
    by reflexivity.
  destruct (failed_flush_state refusedWorld _ _ Hflush)
    as (new & Hc & _ & _ &
        [(Hnb & _)|[(b & b' & pret & _ & Hb & Hp & Hnf & _ & Hst & Hbuf & _)|
                    (evs & fret & _ & _ & _ & Hok & _)]]).
  - lia.
  - exfalso. apply Hnb. reflexivity.
  - change (buffer (node refusedWorld)) with (BufLive bytesAB) in Hb.
    inversion Hb; subst b.
    change (processed (node refusedWorld) bytesAB) with (bytesAB ++ marker, 0) in Hp.
    inversion Hp; subst b' pret.
    eexists _, new. split; [reflexivity|]. repeat split; assumption.
  - discriminate Hok.
Defined.

(** Destroy frees the buffer and leaves its address in the field; a second
    destroy goes through the freed buffer. *)
Lemma destroy_twice_is_undefined :
  exists w',
    xmlSecBufferedDestroy heldWorld = Returns w' /\
    buffer (node w') = BufFreed /\
    xmlSecBufferedDestroy w' = Undefined.
Proof.
  eexists. split; [reflexivity|]. split; reflexivity.
Qed.

(** Destroy on the transform that holds "ABCD". *)
Lemma destroy_releases_buffer_witness :
  exists w',
    xmlSecBufferedDestroy heldWorld = Returns w' /\
    (forall content, buffer (node w') <> BufLive content) /\
    status (node w') = status (node heldWorld) /\
    prev (node w') = prev (node heldWorld) /\ next (node w') = next (node heldWorld) /\
    buffer (node w') = BufFreed /\
    xmlSecBufferedDestroy w' = Undefined.
Proof.
  destruct (destroy_releases_buffer heldWorld)
    as (w' & Hd & Hrel & _ & Hst & Hp & Hn & _ & _ & _ & _ & Hfreed).
  - discriminate.
  - destruct (Hfreed (bytesAB ++ bytesCD) eq_refl) as [Hf Hu].
    exists w'. repeat split; assumption.
Defined.

(** C10: a read that fills the buffer hands the caller's region to every read
    from the previous transform: the first gets the region as the caller
    passed it, each later one as the read before left it.  What the last of
    them left is what the caller finds behind the returned bytes, and in the
    whole region when the read returns an error.  So the region is
    overwritten behind the returned bytes (first scenario), when the read
    returns 0 (second), and when it returns an error (third). *)
Theorem read_uses_region_as_scratch :
  (forall (U D : Type) (HU : BinTransform U) (HD : BinTransform D)
          fuel (w : @World U D) region w' out ret,
     isBuffered (node w) ->
     status (node w) = xmlSecTransformStatusNone ->
     prev (node w) <> None ->
     buffer (node w) = BufNull ->
     region <> [] ->
     xmlSecBufferedTransformRead fuel true w (Some region) = Returns (w', out, ret) ->
     exists new last out',
       calls w' = calls w ++ new /\
       filter isPrevRead new <> [] /\
       scratch region (filter isPrevRead new) last /\
       out = Some out' /\ length out' = length region /\
       (ret < 0 -> out' = last) /\
       (0 <= ret -> skipn (Z.to_nat ret) out' = skipn (Z.to_nat ret) last)) /\
  (exists w' out,
     xmlSecBufferedTransformRead 4 true
       (pullWorld (Some firstByteMethod) [Give bytesXY]) (Some (blank 2)) =
       Returns (w', Some out, 1) /\
     skipn 1 out <> skipn 1 (blank 2)) /\
  (exists w' out,
     xmlSecBufferedTransformRead 4 true
       (pullWorld (Some clearingMethod) [Give bytesXY]) (Some (blank 2)) =
       Returns (w', Some out, 0) /\
     out <> blank 2) /\
  (exists w' out,
     xmlSecBufferedTransformRead 4 true brokenWorld (Some (blank 2)) =
       Returns (w', Some out, -1) /\
     out <> blank 2).
Proof.
  split; [intros U D HU HD; apply read_scratch|].
  repeat split; eexists _, _; (split; [reflexivity|]); discriminate.
Qed.

(** The read that fails after "XY": the region went through the two reads
    from the previous transform and holds "XY". *)
Lemma read_uses_region_as_scratch_witness :
  exists new last,
    calls (worldAfterRead brokenWorld
             (xmlSecBufferedTransformRead 4 true brokenWorld (Some (blank 2)))) =
      calls brokenWorld ++ new /\
    scratch (blank 2) (filter isPrevRead new) last /\
    last = bytesXY.
Proof.
  assert (Hread : xmlSecBufferedTransformRead 4 true brokenWorld (Some (blank 2)) =
                  Returns
                    (worldAfterRead brokenWorld
                       (xmlSecBufferedTransformRead 4 true brokenWorld (Some (blank 2))),
                     Some bytesXY, -1))
    by reflexivity.
  destruct (proj1 read_uses_region_as_scratch Script Sink _ _ 4%nat brokenWorld (blank 2)
              _ _ _ eq_refl eq_refl ltac:(discriminate) eq_refl ltac:(discriminate) Hread)
    as (new & last & out' & Hc & _ & Hsc & Hout & _ & Herr & _).
  exists new, last. split; [exact Hc|]. split; [exact Hsc|].
  inversion Hout; subst out'. symmetry. apply Herr. lia.
Defined.

(** * Further properties of the operations *)

Lemma reads_no_next : forall l, filter isPrevRead l = l -> filter isNext l = [].
Proof.
  induction l as [|e l IH]; intros Hf; [reflexivity|].
  simpl in Hf. destruct (isPrevRead e) eqn:Ee.
  - inversion Hf as [Hf']. rewrite Hf'. destruct e; try discriminate. simpl. auto.
  - pose proof (filter_length_le isPrevRead l) as Hle. rewrite Hf in Hle.
    simpl in Hle. lia.
Qed.

Section Shape.

Context {U D : Type} `{BinTransform U} `{BinTransform D}.

Implicit Types w : @World U D.

Lemma keeps_refl : forall w, keeps w w.
Proof. intros w. unfold keeps. auto 10. Qed.

Lemma keeps_trans : forall w1 w2 w3, keeps w1 w2 -> keeps w2 w3 -> keeps w1 w3.
Proof.
  intros w1 w2 w3 (Hi1 & Hp1 & Hn1 & Hs1 & Ho1 & Hf1) (Hi2 & Hp2 & Hn2 & Hs2 & Ho2 & Hf2).
  unfold keeps. repeat split; try congruence.
  - intros Hs. pose proof (Hs1 Hs) as E. subst w2. auto.
  - intros Hs. destruct (Ho2 Hs) as [Hs'|Hb]; [|auto].
    destruct (Ho1 Hs') as [Hs''|Hb]; [auto|].
    right. rewrite (Hs2 Hs'). exact Hb.
  - auto.
Qed.

(** Handing out from a live buffer: only the transform and the front of the
    region change. *)
Lemma deliver_keeps : forall w region R w' out ret,
  status (node w) = xmlSecTransformStatusNone ->
  buffer (node w) = BufLive R ->
  deliver w region = Returns (w', out, ret) ->
  keeps w w' /\
  ret = Z.of_nat (Nat.min (length region) (length R)) /\
  out = memcpy region R (Nat.min (length region) (length R)) /\
  upstream w' = upstream w /\ downstream w' = downstream w /\ calls w' = calls w /\
  ((length R <= length region)%nat ->
     status (node w') = xmlSecTransformStatusOk /\ buffer (node w') = BufNull) /\
  ((length region < length R)%nat ->
     status (node w') = xmlSecTransformStatusNone /\
     buffer (node w') = BufLive (skipn (length region) R)).
Proof.
  intros w region R w' out ret Hs Hb. rewrite (deliver_live _ _ _ Hb).
  intros Hd; inversion Hd; subst. clear Hd.
  destruct (length R <=? length region)%nat eqn:El;
    [apply Nat.leb_le in El|apply Nat.leb_gt in El]; simpl;
    (split; [unfold keeps; simpl; repeat split; auto; try congruence; try discriminate|]);
    repeat split; auto; lia.
Qed.

Lemma read_keeps : forall fuel alloc w buf w' buf' ret,
  xmlSecBufferedTransformRead fuel alloc w buf = Returns (w', buf', ret) ->
  keeps w w' /\
  (ret = -1 \/ 0 <= ret <= Z.of_nat (sizeOf buf)) /\
  sizeOf buf' = sizeOf buf /\
  downstream w' = downstream w /\
  exists new, calls w' = calls w ++ new /\ filter isNext new = [].
Proof.
  assert (Hsame : forall w buf ret, ret = -1 \/ ret = 0 ->
            keeps w w /\ (ret = -1 \/ 0 <= ret <= Z.of_nat (sizeOf buf)) /\
            sizeOf buf = sizeOf buf /\ downstream w = downstream w /\
            exists new, calls w = calls w ++ new /\ filter isNext new = []).
  { intros w buf ret Hr. split; [apply keeps_refl|]. split; [destruct Hr; [auto|right; lia]|].
    split; [reflexivity|]. split; [reflexivity|]. exists []. now rewrite app_nil_r. }
  intros fuel alloc w buf w' buf' ret. unfold xmlSecBufferedTransformRead.
  destruct (negb _); [intros Hr; inversion Hr; subst; apply Hsame; auto|].
  destruct buf as [region|]; [|intros Hr; inversion Hr; subst; apply Hsame; auto].
  destruct (length region =? 0)%nat;
    [intros Hr; inversion Hr; subst; apply Hsame; auto|].
  destruct (status (node w)) eqn:Es; simpl;
    [|intros Hr; inversion Hr; subst; apply (Hsame _ (Some region)); auto].
  destruct (isNull (prev (node w))); simpl;
    [intros Hr; inversion Hr; subst; apply (Hsame _ (Some region)); auto|].
  destruct (buffer (node w)) as [|R|] eqn:Eb; simpl.
  - destruct (fillBuffer fuel alloc w region) as [[[w1 buf1] r1]| |] eqn:Ef;
      simpl; try discriminate.
    destruct (fill_frame _ _ _ _ _ _ _ Eb Ef)
      as [(-> & -> & -> & ->)|(-> & reads & pevs & acc & Hc & _ & Hfil & _ & Hid & Hst & Hp & Hn & Hdn & Hacc & Hpe & Hlen)].
    { simpl. intros Hr; inversion Hr; subst. apply (Hsame _ (Some region)); auto. }
    assert (Hk1 : keeps w w1).
    { unfold keeps. rewrite Hacc, Hst, Es. repeat split; auto; discriminate. }
    assert (Hnext : filter isNext (reads ++ pevs) = []).
    { rewrite filter_app, (reads_no_next _ Hfil).
      destruct Hpe as [[-> _]|(b & pr & Hpr & _)]; [reflexivity|].
      destruct (process_events _ _ _ _ _ Hpr) as [-> | ->]; reflexivity. }
    destruct (r1 <? 0).
    + intros Hr; inversion Hr; subst. simpl.
      split; [exact Hk1|]. split; [auto|]. split; [exact Hlen|]. split; [exact Hdn|].
      exists (reads ++ pevs). auto.
    + destruct (deliver w1 buf1) as [[[w2 out] res]| |] eqn:Ed; simpl; try discriminate.
      intros Hr; inversion Hr; subst.
      rewrite Es in Hst.
      destruct (deliver_keeps _ _ _ _ _ _ Hst Hacc Ed)
        as (Hk2 & -> & -> & _ & Hdn2 & Hc2 & _).
      split; [exact (keeps_trans _ _ _ Hk1 Hk2)|]. simpl.
      split; [right; lia|]. split; [rewrite memcpy_length by lia; exact Hlen|].
      split; [congruence|]. exists (reads ++ pevs). split; [congruence|exact Hnext].
  - destruct (deliver w region) as [[[w2 out] res]| |] eqn:Ed; simpl; try discriminate.
    intros Hr; inversion Hr; subst.
    destruct (deliver_keeps _ _ _ _ _ _ Es Eb Ed) as (Hk2 & -> & -> & _ & Hdn2 & Hc2 & _).
    split; [exact Hk2|]. simpl.
    split; [right; lia|]. split; [apply memcpy_length; lia|].
    split; [exact Hdn2|]. exists []. now rewrite app_nil_r.
  - unfold deliver. rewrite Eb. discriminate.
Qed.

Lemma write_keeps : forall alloc w buf w' ret,
  xmlSecBufferedTransformWrite alloc w buf = Returns (w', ret) ->
  keeps w w' /\ (ret = -1 \/ ret = 0).
Proof.
  intros alloc w buf w' ret Hw.
  destruct (write_cases _ _ _ _ _ Hw) as [[-> Hret]|(-> & Hs & Hf & b' & ->)].
  - split; [apply keeps_refl|exact Hret].
  - split; [|auto]. unfold keeps. simpl. rewrite Hs.
    repeat split; auto; discriminate.
Qed.

Lemma flush_keeps : forall w w' ret,
  xmlSecBufferedTransformFlush w = Returns (w', ret) ->
  keeps w w' /\ (ret = -1 \/ ret = 0) /\
  upstream w' = upstream w /\
  exists new, calls w' = calls w ++ new /\ filter isPrevRead new = [].
Proof.
  assert (Hsame : forall w ret, ret = -1 \/ ret = 0 ->
            keeps w w /\ (ret = -1 \/ ret = 0) /\ upstream w = upstream w /\
            exists new, calls w = calls w ++ new /\ filter isPrevRead new = []).
  { intros w ret Hr. split; [apply keeps_refl|]. split; [exact Hr|].
    split; [reflexivity|]. exists []. now rewrite app_nil_r. }
  intros w w' ret. unfold xmlSecBufferedTransformFlush.
  destruct (negb _); [intros Hf; inversion Hf; subst; apply Hsame; auto|].
  destruct (status (node w)) eqn:Es; simpl;
    [|intros Hf; inversion Hf; subst; apply Hsame; auto].
  destruct (isNull (next (node w))); simpl;
    [intros Hf; inversion Hf; subst; apply Hsame; auto|].
  destruct (buffer (node w)) as [|b|] eqn:Eb; simpl;
    [intros Hf; inversion Hf; subst; apply Hsame; auto| |discriminate].
  destruct (xmlSecBufferedProcess (node w) b) as [[b' pret] pevs] eqn:Ep.
  assert (Hpe : filter isPrevRead pevs = [])
    by (destruct (process_events _ _ _ _ _ Ep) as [-> | ->]; reflexivity).
  destruct (pret <? 0).
  { intros Hf; inversion Hf; subst. simpl.
    split; [unfold keeps; simpl; rewrite Es; repeat split; auto; discriminate|].
    split; [auto|]. split; [reflexivity|]. exists pevs. auto. }
  destruct (xmlSecBinTransformWrite (downstream w) _) as [d' wret] eqn:Ew.
  destruct (wret <? 0).
  { intros Hf; inversion Hf; subst. simpl.
    split; [unfold keeps; simpl; rewrite Es; repeat split; auto; discriminate|].
    split; [auto|]. split; [reflexivity|].
    eexists (pevs ++ [EvNextWrite _ wret]). rewrite app_assoc. split; [reflexivity|].
    rewrite filter_app, Hpe. reflexivity. }
  destruct (xmlSecBinTransformFlush d') as [d'' fret] eqn:Ef.
  assert (Hk : forall r : Z, r = -1 \/ r = 0 ->
            forall wz : @World U D,
              wz = logged
                     (with_downstream
                        (with_node
                           (logged (with_downstream (logged (with_buffer w (BufLive b')) pevs) d')
                              [EvNextWrite (firstn (xmlBufferLength b') (xmlBufferContent b')) wret])
                           (set_buffer
                              (set_status (set_buffer (node w) (BufLive b'))
                                 xmlSecTransformStatusOk) BufNull)) d'')
                     [EvNextFlush fret] ->
              keeps w wz /\ (r = -1 \/ r = 0) /\ upstream wz = upstream w /\
              exists new, calls wz = calls w ++ new /\ filter isPrevRead new = []).
  { intros r Hr wz ->. simpl.
    split; [unfold keeps; simpl; rewrite Es; repeat split; auto; discriminate|].
    split; [exact Hr|]. split; [reflexivity|].
    eexists (pevs ++ [EvNextWrite _ wret; EvNextFlush fret]).
    split; [now rewrite <- !app_assoc|]. rewrite filter_app, Hpe. reflexivity. }
  destruct (fret <? 0); intros Hf; inversion Hf; subst; apply Hk; auto.
Qed.

Lemma call_keeps : forall fuel w c w' r,
  call fuel w c = Returns (w', r) -> keeps w w'.
Proof.
  intros fuel w [buf alloc|buf alloc|] w' r; simpl.
  - destruct (xmlSecBufferedTransformRead fuel alloc w buf) as [[[w1 buf1] r1]| |] eqn:Er;
      simpl; try discriminate.
    intros Hc; inversion Hc; subst. apply (read_keeps _ _ _ _ _ _ _ Er).
  - destruct (xmlSecBufferedTransformWrite alloc w buf) as [[w1 r1]| |] eqn:Ew;
      simpl; try discriminate.
    intros Hc; inversion Hc; subst. apply (write_keeps _ _ _ _ _ Ew).
  - destruct (xmlSecBufferedTransformFlush w) as [[w1 r1]| |] eqn:Ef;
      simpl; try discriminate.
    intros Hc; inversion Hc; subst. apply (flush_keeps _ _ _ Ef).
Qed.

Lemma run_keeps : forall fuel cs w w' rs,
  run fuel w cs = Returns (w', rs) -> keeps w w'.
Proof.
  intros fuel cs. induction cs as [|c cs IH]; intros w w' rs Hrun.
  - simpl in Hrun. inversion Hrun; subst. apply keeps_refl.
  - apply run_cons in Hrun. destruct Hrun as (w1 & r & rs' & Hc & Hrun & _).
    exact (keeps_trans _ _ _ (call_keeps _ _ _ _ _ Hc) (IH _ _ _ Hrun)).
Qed.

End Shape.

Lemma storedAny_present : forall items, storedAny true items = true.
Proof.
  induction items as [|[data alloc] items IH]; [reflexivity|exact IH].
Qed.

Section Further.

Context {U D : Type} `{BinTransform U} `{BinTransform D}.

Implicit Types w : @World U D.

(** X1: a read or a write whose [buf] is [NULL] or whose [size] is 0 returns 0
    and changes nothing, whatever the state of the buffered transform: such
    a read does not fill the buffer and does not finish the transform. *)
Theorem absent_argument_is_noop : forall w buf,
  isBuffered (node w) ->
  absent buf ->
  (forall fuel alloc, xmlSecBufferedTransformRead fuel alloc w buf = Returns (w, buf, 0)) /\
  (forall alloc, xmlSecBufferedTransformWrite alloc w buf = Returns (w, 0)).
Proof.
  intros w buf Hb Habs. split; intros;
    unfold xmlSecBufferedTransformRead, xmlSecBufferedTransformWrite;
    rewrite (check_buffered _ Hb); destruct Habs as [-> | ->]; reflexivity.
Qed.

(** X2: on a transform whose subtype is not the buffered one, read, write and
    flush return -1 and change nothing, and [xmlSecBufferedProcess] returns
    -1 without calling the process method. *)
Theorem misuse_is_rejected : forall w,
  ~ isBuffered (node w) ->
  (forall fuel alloc buf,
     xmlSecBufferedTransformRead fuel alloc w buf = Returns (w, buf, -1)) /\
  (forall alloc buf, xmlSecBufferedTransformWrite alloc w buf = Returns (w, -1)) /\
  xmlSecBufferedTransformFlush w = Returns (w, -1) /\
  (forall b, xmlSecBufferedProcess (node w) b = (b, -1, [EvProcess b])).
Proof.
  intros w Hb.
  assert (Hc : xmlSecBinTransformCheckSubType (node w) xmlSecBinTransformSubTypeBuffered = false).
  { unfold xmlSecBinTransformCheckSubType, isBuffered in *.
    destruct (binSubType (id (node w))); [congruence|reflexivity]. }
  repeat split; intros;
    unfold xmlSecBufferedTransformRead, xmlSecBufferedTransformWrite,
      xmlSecBufferedTransformFlush, xmlSecBufferedProcess;
    rewrite Hc; reflexivity.
Qed.

(** X3: as long as the transform has no buffer, flushes and reads and writes
    without data all return 0 and change nothing: a flush with nothing
    written does not set the status and does not flush the next transform. *)
Theorem idle_calls_without_buffer : forall fuel w cs,
  isBuffered (node w) ->
  buffer (node w) = BufNull ->
  Forall idle cs ->
  exists rs, run fuel w cs = Returns (w, rs) /\ Forall (fun r => reply_ret r = 0) rs.
Proof.
  intros fuel w cs Hb Hnull Hall.
  assert (Hflush : xmlSecBufferedTransformFlush w = Returns (w, 0)).
  { unfold xmlSecBufferedTransformFlush. rewrite (check_buffered _ Hb), Hnull. simpl.
    now rewrite !orb_true_r. }
  induction Hall as [|c cs Hc _ [rs [Hrun Hrs]]].
  - exists []. split; [reflexivity|constructor].
  - destruct c as [buf alloc|buf alloc|]; simpl in *.
    + unfold xmlSecBufferedTransformRead. rewrite (check_buffered _ Hb).
      destruct Hc as [-> | ->]; simpl; rewrite Hrun; simpl;
        (eexists; split; [reflexivity|constructor; [reflexivity|exact Hrs]]).
    + unfold xmlSecBufferedTransformWrite. rewrite (check_buffered _ Hb).
      destruct Hc as [-> | ->]; simpl; rewrite Hrun; simpl;
        (eexists; split; [reflexivity|constructor; [reflexivity|exact Hrs]]).
    + rewrite Hflush. simpl. rewrite Hrun. simpl.
      eexists; split; [reflexivity|constructor; [reflexivity|exact Hrs]].
Qed.

(** One write of non-empty data that fits an [int], on a Pending transform
    with a next transform, by the state of the buffer field. *)
Lemma write_step : forall alloc w data,
  isBuffered (node w) ->
  status (node w) = xmlSecTransformStatusNone ->
  next (node w) <> None ->
  data <> [] ->
  fits data ->
  xmlSecBufferedTransformWrite alloc w (Some data) =
    match buffer (node w) with
    | BufLive b => Returns (with_buffer w (BufLive (b ++ data)), 0)
    | BufNull => if alloc then Returns (with_buffer w (BufLive data), 0) else Returns (w, -1)
    | BufFreed => Undefined
    end.
Proof.
  intros alloc w data Hb Hs Hn Hd Hfit. unfold xmlSecBufferedTransformWrite.
  rewrite (check_buffered _ Hb), Hs. simpl.
  destruct (length data =? 0)%nat eqn:El;
    [apply Nat.eqb_eq in El; destruct data; [congruence|discriminate]|].
  destruct (next (node w)) as [a|] eqn:En; [|congruence]. simpl isNull. cbv iota.
  destruct (buffer (node w)) as [|b|] eqn:Eb; simpl.
  - destruct alloc; simpl.
    + rewrite (add_fits _ _ Hd Hfit). reflexivity.
    + rewrite <- Eb. now rewrite with_buffer_same.
  - rewrite Eb, (add_fits _ _ Hd Hfit). reflexivity.
  - rewrite Eb. reflexivity.
Qed.

(** X4: writes of non-empty data of at most [INT_MAX] bytes each on a Pending
    transform with a next transform, where [xmlBufferCreate] may fail: while
    there is no buffer, a
    write whose creation fails returns -1 and its data is lost; every other
    write returns 0, and the buffer holds what it held followed by the data
    of the writes that returned 0, in call order. *)
Theorem writes_store_what_is_accepted : forall fuel items w,
  isBuffered (node w) ->
  status (node w) = xmlSecTransformStatusNone ->
  next (node w) <> None ->
  buffer (node w) <> BufFreed ->
  Forall (fun item => fst item <> []) items ->
  Forall (fun item => fits (fst item)) items ->
  run fuel w (writeItems items) =
    Returns
      (if storedAny (negb (isNullBuffer (buffer (node w)))) items
       then with_buffer w
              (BufLive (accumulated (buffer (node w)) ++
                        concat (stored (negb (isNullBuffer (buffer (node w)))) items)))
       else w,
       map ReplyWrite (storedRets (negb (isNullBuffer (buffer (node w)))) items)).
Proof.
  intros fuel items. induction items as [|[data alloc] items IH];
    intros w Hb Hs Hn Hf Hall Hfits.
  - simpl. destruct (buffer (node w)) as [|b|] eqn:Eb; simpl; [reflexivity| |congruence].
    rewrite app_nil_r, <- Eb, with_buffer_same. reflexivity.
  - inversion Hall as [|? ? Hd Hall']; subst. simpl in Hd.
    inversion Hfits as [|? ? Hfd Hfits']; subst. simpl in Hfd.
    cbn [writeItems map fst snd run call]. fold (writeItems items).
    rewrite (write_step alloc w data Hb Hs Hn Hd Hfd).
    destruct (buffer (node w)) as [|b|] eqn:Eb; [| |congruence].
    + destruct alloc; cbn [bind isNullBuffer negb orb stored storedRets storedAny].
      * rewrite (IH (with_buffer w (BufLive data))) by (simpl; auto; discriminate).
        simpl. rewrite !storedAny_present. reflexivity.
      * rewrite (IH w Hb Hs Hn) by (auto; congruence). rewrite Eb. reflexivity.
    + cbn [bind isNullBuffer negb orb stored storedRets storedAny].
      rewrite (IH (with_buffer w (BufLive (b ++ data)))) by (simpl; auto; discriminate).
      simpl. rewrite !storedAny_present, <- app_assoc. reflexivity.
Qed.



(** X7: a read never calls the next transform: it leaves it as it was and
    logs no write to it and no flush of it. *)
Theorem read_never_calls_next : forall fuel alloc w buf w' buf' ret,
  xmlSecBufferedTransformRead fuel alloc w buf = Returns (w', buf', ret) ->
  downstream w' = downstream w /\
  exists new, calls w' = calls w ++ new /\ filter isNext new = [].
Proof.
  intros fuel alloc w buf w' buf' ret Hr.
  destruct (read_keeps _ _ _ _ _ _ _ Hr) as (_ & _ & _ & Hdn & Hnew). auto.
Qed.

(** X8: a flush returns 0 or -1 and never reads from the previous transform:
    it leaves it as it was and logs no read from it. *)
Theorem flush_never_reads_previous : forall w w' ret,
  xmlSecBufferedTransformFlush w = Returns (w', ret) ->
  (ret = -1 \/ ret = 0) /\
  upstream w' = upstream w /\
  exists new, calls w' = calls w ++ new /\ filter isPrevRead new = [].
Proof.
  intros w w' ret Hf. destruct (flush_keeps _ _ _ Hf) as (_ & Hret & Hu & Hnew). auto.
Qed.

(** X9: no sequence of reads, writes and flushes changes the id of the
    transform or its links to the previous and the next transform, and the
    status never goes back: a status that is None at the end was None at the
    start. *)
Theorem links_are_fixed : forall fuel w cs w' rs,
  run fuel w cs = Returns (w', rs) ->
  id (node w') = id (node w) /\
  prev (node w') = prev (node w) /\ next (node w') = next (node w) /\
  (status (node w') = xmlSecTransformStatusNone ->
     status (node w) = xmlSecTransformStatusNone).
Proof.
  intros fuel w cs w' rs Hrun.
  destruct (run_keeps _ _ _ _ _ Hrun) as (Hi & Hp & Hn & Hs & _).
  repeat split; auto. intros Hnone.
  destruct (status (node w)) eqn:Es; [reflexivity|].
  rewrite (Hs eq_refl), Es in Hnone. discriminate.
Qed.

(** X10: a transform that is done holds no buffer.  If that is so before a
    sequence of reads, writes and flushes it is so after it, in particular
    when the sequence starts on a Pending transform: whenever the status is
    Ok the buffer field is [NULL], and destroy has nothing to release. *)
Theorem finalized_holds_no_buffer : forall fuel w cs w' rs,
  (status (node w) = xmlSecTransformStatusOk -> buffer (node w) = BufNull) ->
  run fuel w cs = Returns (w', rs) ->
  status (node w') = xmlSecTransformStatusOk ->
  buffer (node w') = BufNull /\ xmlSecBufferedDestroy w' = Returns w'.
Proof.
  intros fuel w cs w' rs Hinv Hrun Hok.
  destruct (run_keeps _ _ _ _ _ Hrun) as (_ & _ & _ & Hs & Ho & _).
  assert (Hnull : buffer (node w') = BufNull).
  { destruct (Ho Hok) as [Hs0|Hb]; [|exact Hb].
    rewrite (Hs Hs0). exact (Hinv Hs0). }
  split; [exact Hnull|]. unfold xmlSecBufferedDestroy. rewrite Hnull. reflexivity.
Qed.

End Further.

Lemma gathered_app : forall l1 l2, gathered (l1 ++ l2) = gathered l1 ++ gathered l2.
Proof. intros l1 l2. unfold gathered. apply flat_map_app. Qed.

Section Composition.

Context {U D : Type} `{BinTransform U} `{BinTransform D}.

Implicit Types w : @World U D.

Lemma run_length : forall fuel cs w w' rs,
  run fuel w cs = Returns (w', rs) -> length rs = length cs.
Proof.
  intros fuel cs. induction cs as [|c cs IH]; intros w w' rs Hrun.
  - simpl in Hrun. inversion Hrun; reflexivity.
  - apply run_cons in Hrun. destruct Hrun as (w1 & r & rs' & _ & Hrun & ->).
    simpl. f_equal. exact (IH _ _ _ Hrun).
Qed.

(** X11: the loop of the first read, against any previous transform.  When it
    ends, every read but the last returned more than 0 and the last one did
    not; the buffer holds what it held followed by, read after read, the
    first [ret] bytes of the region as the read left it; the loop hands back
    the region as the last read left it, and signals an error exactly when
    the last read returned a negative value. *)
Theorem drain_gathers : forall fuel w buf w' buf' ret acc,
  buffer (node w) = BufLive acc ->
  drain fuel w buf = Returns (w', buf', ret) ->
  exists gifts last_in r,
    calls w' = calls w ++ gifts ++ [EvPrevRead last_in buf' r] /\
    Forall gave gifts /\
    r <= 0 /\ ret = (if r <? 0 then -1 else 0) /\
    buffer (node w') = BufLive (acc ++ gathered gifts).
Proof.
  induction fuel as [|fuel IH]; intros w buf w' buf' ret acc Hacc; simpl; [discriminate|].
  destruct (xmlSecBinTransformRead (upstream w) buf) as [[u1 buf1] r1] eqn:Er.
  destruct (r1 <? 0) eqn:E1.
  { intros Hd; inversion Hd; subst. exists [], buf, r1. simpl. rewrite E1, app_nil_r.
    apply Z.ltb_lt in E1.
    split; [reflexivity|]. split; [constructor|]. split; [lia|].
    split; [reflexivity|exact Hacc]. }
  destruct (0 <? r1) eqn:E2.
  2:{ intros Hd; inversion Hd; subst. exists [], buf, r1. simpl. rewrite E1, app_nil_r.
      apply Z.ltb_ge in E2.
      split; [reflexivity|]. split; [constructor|]. split; [exact E2|].
      split; [reflexivity|exact Hacc]. }
  simpl. rewrite Hacc.
  destruct (Z.of_nat (length buf1) <? r1); [discriminate|].
  intros Hd. apply (IH _ _ _ _ _ (xmlBufferAdd acc buf1 (Z.to_nat r1))) in Hd; [|reflexivity].
  destruct Hd as (gifts & last_in & r & Hc & Hg & Hr & Hret & Hbuf).
  exists (EvPrevRead buf buf1 r1 :: gifts), last_in, r.
  simpl in Hc. rewrite Hc, <- app_assoc. split; [reflexivity|].
  split; [constructor; [apply Z.ltb_lt in E2; exact E2|exact Hg]|].
  split; [exact Hr|]. split; [exact Hret|].
  rewrite Hbuf. unfold xmlBufferAdd, gathered. simpl. now rewrite <- app_assoc.
Qed.


(** A previous transform that keeps to the region never makes the loop read
    past it. *)
Lemma drain_defined : forall fuel w buf,
  @bounded_reads U _ ->
  buffer (node w) <> BufFreed ->
  drain fuel w buf <> Undefined.
Proof.
  induction fuel as [|fuel IH]; intros w buf Hbd Hfree; simpl; [discriminate|].
  destruct (xmlSecBinTransformRead (upstream w) buf) as [[u1 buf1] r1] eqn:Er.
  assert (Hr1 : r1 <= Z.of_nat (length buf1)).
  { unfold xmlSecBinTransformRead in Er. specialize (Hbd (upstream w) buf).
    destruct (readBin (upstream w) buf) as [[u raw] r]. simpl in Hbd.
    inversion Er; subst. rewrite written_length. exact Hbd. }
  destruct (r1 <? 0); [discriminate|].
  destruct (0 <? r1); [|discriminate].
  simpl. destruct (buffer (node w)) as [|acc|] eqn:Eb; [| |congruence].
  - apply IH; [exact Hbd|]. simpl. rewrite Eb. discriminate.
  - destruct (Z.of_nat (length buf1) <? r1) eqn:E; [apply Z.ltb_lt in E; lia|].
    apply IH; [exact Hbd|]. simpl. discriminate.
Qed.

Lemma call_defined : forall fuel w c,
  @bounded_reads U _ ->
  buffer (node w) <> BufFreed ->
  sized c ->
  call fuel w c <> Undefined.
Proof.
  intros fuel w [buf alloc|buf alloc|] Hbd Hfree Hsized; simpl.
  - unfold xmlSecBufferedTransformRead.
    destruct (negb _); [discriminate|].
    destruct buf as [region|]; [|discriminate].
    destruct (length region =? 0)%nat; [discriminate|].
    destruct (_ || _); [discriminate|].
    destruct (buffer (node w)) as [|R|] eqn:Eb; [| |congruence]; simpl.
    + destruct (fillBuffer fuel alloc w region) as [[[w1 buf1] r1]| |] eqn:Ef; simpl.
      * destruct (fill_frame _ _ _ _ _ _ _ Eb Ef)
          as [(_ & _ & _ & ->)|(_ & reads & pevs & acc & _ & _ & _ & _ & _ & _ & _ & _ & _ & Hacc & _)].
        -- discriminate.
        -- destruct (r1 <? 0); [discriminate|].
           rewrite (deliver_live _ _ _ Hacc). discriminate.
      * exfalso. unfold fillBuffer in Ef. destruct alloc; simpl in Ef; [|discriminate].
        destruct (drain fuel (with_buffer w (BufLive [])) region)
          as [[[w1 buf1] r1]| |] eqn:Ed; simpl in Ef; try discriminate.
        -- destruct (drain_frame _ _ _ _ _ _ Ed)
             as (_ & _ & _ & _ & _ & _ & _ & _ & _ & _ & _ & _ & _ & Hlive).
           destruct (Hlive [] eq_refl) as [acc Hacc]. simpl in Hacc. rewrite Hacc in Ef.
           destruct (r1 <? 0); [discriminate|].
           destruct (xmlSecBufferedProcess (node w1) acc) as [[b' pr] pevs].
           destruct (pr <? 0); discriminate.
        -- apply (drain_defined fuel (with_buffer w (BufLive [])) region Hbd); [|exact Ed].
           simpl. discriminate.
      * discriminate.
    + rewrite (deliver_live _ _ _ Eb). discriminate.
  - unfold xmlSecBufferedTransformWrite.
    destruct (negb _); [discriminate|].
    destruct buf as [data|]; [|discriminate].
    destruct (length data =? 0)%nat eqn:El; [discriminate|].
    assert (Hd : data <> []) by (intros ->; discriminate).
    simpl in Hsized.
    destruct (_ || _); [discriminate|].
    destruct (buffer (node w)) as [|b|] eqn:Eb; [| |congruence]; simpl.
    + destruct alloc; simpl; [|discriminate].
      rewrite (add_fits _ _ Hd Hsized). discriminate.
    + rewrite Eb, (add_fits _ _ Hd Hsized). discriminate.
  - unfold xmlSecBufferedTransformFlush.
    destruct (negb _); [discriminate|].
    destruct (_ || _); [discriminate|].
    destruct (buffer (node w)) as [|b|] eqn:Eb; [discriminate| |congruence].
    destruct (xmlSecBufferedProcess (node w) b) as [[b' pr] pevs].
    destruct (pr <? 0); [discriminate|].
    destruct (xmlSecBinTransformWrite _ _) as [d' wret].
    destruct (wret <? 0); [discriminate|].
    destruct (xmlSecBinTransformFlush _) as [d'' fret].
    destruct (fret <? 0); discriminate.
Qed.


End Composition.

Section Hazards.

Context {U D : Type} `{BinTransform U} `{BinTransform D}.

Implicit Types w : @World U D.


(** X15: destroy must be the last call.  After destroy released a live
    buffer the field still holds its address, so every later call that gets
    past its guards to the buffer goes through freed memory: a write with
    data, a flush, a read, and a second destroy. *)
Theorem use_after_destroy_is_undefined : forall w b,
  isBuffered (node w) ->
  status (node w) = xmlSecTransformStatusNone ->
  buffer (node w) = BufLive b ->
  exists w1,
    xmlSecBufferedDestroy w = Returns w1 /\
    buffer (node w1) = BufFreed /\
    (next (node w) <> None ->
       (forall alloc data, data <> [] ->
          xmlSecBufferedTransformWrite alloc w1 (Some data) = Undefined) /\
       xmlSecBufferedTransformFlush w1 = Undefined) /\
    (prev (node w) <> None ->
       forall fuel alloc region, region <> [] ->
         xmlSecBufferedTransformRead fuel alloc w1 (Some region) = Undefined) /\
    xmlSecBufferedDestroy w1 = Undefined.
Proof.
  intros w b Hb Hs Hbuf. exists (with_buffer w BufFreed).
  assert (Hc : xmlSecBinTransformCheckSubType (node (with_buffer w BufFreed))
                 xmlSecBinTransformSubTypeBuffered = true)
    by (apply check_buffered; exact Hb).
  split; [unfold xmlSecBufferedDestroy; rewrite Hbuf; reflexivity|].
  split; [reflexivity|]. split; [|split].
  - intros Hn. split.
    + intros alloc data Hd. unfold xmlSecBufferedTransformWrite. rewrite Hc.
      destruct data as [|x data]; [congruence|]. simpl. rewrite Hs.
      destruct (next (node w)); [reflexivity|congruence].
    + unfold xmlSecBufferedTransformFlush. rewrite Hc. simpl. rewrite Hs.
      destruct (next (node w)); [reflexivity|congruence].
  - intros Hp fuel alloc region Hr. unfold xmlSecBufferedTransformRead. rewrite Hc.
    destruct region as [|x region]; [congruence|]. simpl. rewrite Hs.
    destruct (prev (node w)); [reflexivity|congruence].
  - reflexivity.
Qed.

End Hazards.

(** ** The further properties on the scenarios *)

Lemma absent_argument_is_noop_witness :
  xmlSecBufferedTransformRead 4 true mixedWorld (Some []) =
    Returns (mixedWorld, Some [], 0) /\
  xmlSecBufferedTransformWrite true mixedWorld (Some []) = Returns (mixedWorld, 0).
Proof.
  destruct (absent_argument_is_noop mixedWorld (Some [])) as [Hr Hw].
  - reflexivity.
  - right. reflexivity.
  - split; [apply Hr|apply Hw].
Defined.

Lemma misuse_is_rejected_witness :
  xmlSecBufferedTransformRead 4 true otherWorld (Some (blank 2)) =
    Returns (otherWorld, Some (blank 2), -1) /\
  xmlSecBufferedTransformWrite true otherWorld (Some bytesAB) = Returns (otherWorld, -1) /\
  xmlSecBufferedTransformFlush otherWorld = Returns (otherWorld, -1).
Proof.
  destruct (misuse_is_rejected otherWorld) as (Hr & Hw & Hf & _).
  - discriminate.
  - split; [apply Hr|]. split; [apply Hw|exact Hf].
Defined.

Lemma idle_calls_without_buffer_witness :
  exists rs,
    run 4 (chainWorld (Some markerMethod) [Give bytesXY] (sink 0 0))
      [CallWrite None true; CallFlush; CallRead (Some []) true; CallFlush] =
      Returns (chainWorld (Some markerMethod) [Give bytesXY] (sink 0 0), rs) /\
    Forall (fun r => reply_ret r = 0) rs.
Proof.
  apply idle_calls_without_buffer; try reflexivity.
  repeat (apply Forall_cons || apply Forall_nil); simpl; unfold absent; auto.
Defined.

Lemma writes_store_what_is_accepted_witness :
  run 1 (pushWorld (Some markerMethod) (sink 0 0))
    (writeItems [(bytesAB, false); (bytesCD, true); (bytesXY, false)]) =
    Returns
      (with_buffer (pushWorld (Some markerMethod) (sink 0 0)) (BufLive (bytesCD ++ bytesXY)),
       [ReplyWrite (-1); ReplyWrite 0; ReplyWrite 0]).
Proof.
  apply (writes_store_what_is_accepted 1
           [(bytesAB, false); (bytesCD, true); (bytesXY, false)]
           (pushWorld (Some markerMethod) (sink 0 0)));
    try reflexivity; try discriminate.
  - repeat constructor; discriminate.
  - repeat constructor; unfold fits, INT_MAX; simpl; lia.
Defined.



Lemma read_never_calls_next_witness :
  exists new,
    calls (worldAfterRead sourceWorld
             (xmlSecBufferedTransformRead 4 true sourceWorld (Some (blank 2)))) =
      calls sourceWorld ++ new /\
    filter isNext new = [].
Proof.
  assert (Hread : xmlSecBufferedTransformRead 4 true sourceWorld (Some (blank 2)) =
                  Returns
                    (worldAfterRead sourceWorld
                       (xmlSecBufferedTransformRead 4 true sourceWorld (Some (blank 2))),
                     Some bytesXY, 2))
    by reflexivity.
  exact (proj2 (read_never_calls_next 4 true sourceWorld _ _ _ _ Hread)).
Defined.

Lemma flush_never_reads_previous_witness :
  exists new,
    calls (worldAfter mixedWorld (xmlSecBufferedTransformFlush mixedWorld)) =
      calls mixedWorld ++ new /\
    filter isPrevRead new = [].
Proof.
  assert (Hflush : xmlSecBufferedTransformFlush mixedWorld =
                   Returns (worldAfter mixedWorld (xmlSecBufferedTransformFlush mixedWorld), 0))
    by reflexivity.
  exact (proj2 (proj2 (flush_never_reads_previous mixedWorld _ _ Hflush))).
Defined.

Lemma links_are_fixed_witness :
  prev (node (worldAfter mixedWorld
                (run 4 mixedWorld [CallRead (Some (blank 3)) true; CallFlush]))) =
    prev (node mixedWorld) /\
  next (node (worldAfter mixedWorld
                (run 4 mixedWorld [CallRead (Some (blank 3)) true; CallFlush]))) =
    next (node mixedWorld).
Proof.
  assert (Hrun : run 4 mixedWorld [CallRead (Some (blank 3)) true; CallFlush] =
                 Returns
                   (worldAfter mixedWorld
                      (run 4 mixedWorld [CallRead (Some (blank 3)) true; CallFlush]),
                    [ReplyRead (Some (firstn 3 (bytesAB ++ bytesCD))) 3; ReplyFlush 0]))
    by reflexivity.
  destruct (links_are_fixed 4 mixedWorld _ _ _ Hrun) as (_ & Hp & Hn & _).
  split; assumption.
Defined.

Lemma finalized_holds_no_buffer_witness :
  buffer (node (worldAfter mixedWorld
                  (run 4 mixedWorld [CallRead (Some (blank 3)) true; CallFlush]))) = BufNull.
Proof.
  assert (Hrun : run 4 mixedWorld [CallRead (Some (blank 3)) true; CallFlush] =
                 Returns
                   (worldAfter mixedWorld
                      (run 4 mixedWorld [CallRead (Some (blank 3)) true; CallFlush]),
                    [ReplyRead (Some (firstn 3 (bytesAB ++ bytesCD))) 3; ReplyFlush 0]))
    by reflexivity.
  apply (finalized_holds_no_buffer 4 mixedWorld _ _ _ ltac:(discriminate) Hrun).
  reflexivity.
Defined.

Lemma drain_gathers_witness :
  exists gifts last_in r w',
    drain 4 (with_buffer sourceWorld (BufLive [])) (blank 2) = Returns (w', [x5a; x59], 0) /\
    calls w' = gifts ++ [EvPrevRead last_in [x5a; x59] r] /\
    Forall gave gifts /\
    buffer (node w') = BufLive (gathered gifts).
Proof.
  assert (Hd : exists w', drain 4 (with_buffer sourceWorld (BufLive [])) (blank 2) =
                          Returns (w', [x5a; x59], 0))
    by (eexists; reflexivity).
  destruct Hd as [w' Hd].
  destruct (drain_gathers 4 (with_buffer sourceWorld (BufLive [])) _ _ _ _ [] eq_refl Hd)
    as (gifts & last_in & r & Hc & Hg & _ & _ & Hbuf).
  exists gifts, last_in, r, w'. split; [exact Hd|].
  split; [exact Hc|]. split; [exact Hg|exact Hbuf].
Defined.


(** The scripted previous transform never returns more than the size. *)
Lemma script_bounded : @bounded_reads Script _.
Proof.
  intros [|[data|] s] buf; simpl; lia.
Qed.



Lemma use_after_destroy_is_undefined_witness :
  exists w1,
    xmlSecBufferedDestroy heldWorld = Returns w1 /\
    xmlSecBufferedTransformFlush w1 = Undefined /\
    xmlSecBufferedDestroy w1 = Undefined.
Proof.
  destruct (use_after_destroy_is_undefined heldWorld (bytesAB ++ bytesCD))
    as (w1 & Hd & _ & Hnext & _ & Hd2); try reflexivity.
  destruct Hnext as [_ Hf]; [discriminate|].
  exists w1. repeat split; assumption.
Defined.
